(** * agent-notifier: the event normaliser and the channel dispatcher

    A shallow embedding of [skills/agent-notifier/notify.py]: the values the
    script handles (decoded JSON documents and Python dictionaries), the
    exceptions its operations raise, [parse_input], [load_config], the two
    formatting helpers and [main] with its per-channel [_dispatch]. *)

From Stdlib Require Import String Ascii List ZArith Bool Arith Lia Permutation.
From Stdlib Require Import DecimalString.
Import ListNotations.

Local Open Scope list_scope.
Local Open Scope string_scope.

(** ** Python values and exceptions *)

Module Py.

(** A decoded JSON document, as [json.loads] builds it.  An object keeps its
    members in document order, as a Python [dict] does; a float is known by
    its [repr], the only thing the script observes of it. *)
#[warnings="-register-all"]
Inductive pyval : Type :=
| PyNone
| PyBool (b : bool)
| PyInt (z : Z)
| PyFloat (repr : string)
| PyStr (s : string)
| PyList (xs : list pyval)
| PyDict (kvs : list (string * pyval)).

Definition pydict : Type := list (string * pyval).

Inductive exn_kind : Type :=
| TypeError
| AttributeError
| KeyError
| JSONDecodeError
| RecursionError
| OSError
| OtherException.

(** A raised exception: its class and [str(exc)].  The wording of the
    interpreter's own messages differs between CPython releases; nothing
    below depends on it. *)
Record exn : Type := Exn { kind : exn_kind; text : string }.

Inductive result (A : Type) : Type :=
| Ok (a : A)
| Raise (e : exn).

Arguments Ok {A} a.
Arguments Raise {A} e.

Definition bind {A B : Type} (r : result A) (k : A -> result B) : result B :=
  match r with
  | Ok a => k a
  | Raise e => Raise e
  end.

Definition raised_kind {A : Type} (r : result A) : option exn_kind :=
  match r with
  | Ok _ => None
  | Raise e => Some (kind e)
  end.

Definition returns {A : Type} (r : result A) : bool :=
  match r with
  | Ok _ => true
  | Raise _ => false
  end.

(** [try: body / except Exception as exc: handler exc] *)
Definition try_except {A : Type} (body : result A) (handler : exn -> result A)
  : result A :=
  match body with
  | Ok a => Ok a
  | Raise e => handler e
  end.

Definition exn_kind_eqb (a b : exn_kind) : bool :=
  match a, b with
  | TypeError, TypeError
  | AttributeError, AttributeError
  | KeyError, KeyError
  | JSONDecodeError, JSONDecodeError
  | RecursionError, RecursionError
  | OSError, OSError
  | OtherException, OtherException => true
  | _, _ => false
  end.

End Py.

Export Py.

Declare Scope py_scope.
Delimit Scope py_scope with py.
Notation "x <- e ;; k" := (bind e (fun x => k))
  (at level 61, e at next level, right associativity) : py_scope.
Local Open Scope py_scope.

(** ** Strings *)

Module Str.

Definition is_empty (s : string) : bool :=
  match s with
  | EmptyString => true
  | String _ _ => false
  end.

(** [needle in hay] on two strings *)
Fixpoint contains (needle hay : string) : bool :=
  prefix needle hay ||
  match hay with
  | EmptyString => false
  | String _ rest => contains needle rest
  end.

(** [sep.join(parts)] *)
Fixpoint join (sep : string) (parts : list string) : string :=
  match parts with
  | [] => ""
  | [p] => p
  | p :: rest => p ++ sep ++ join sep rest
  end.

Fixpoint rev_onto (s acc : string) : string :=
  match s with
  | EmptyString => acc
  | String c rest => rev_onto rest (String c acc)
  end.

Definition rev (s : string) : string := rev_onto s EmptyString.

Definition code (c : ascii) : nat := nat_of_ascii c.

Definition mem_nat (n : nat) (l : list nat) : bool := existsb (Nat.eqb n) l.

(** The one-byte white space of [str.strip]: U+0009..U+000D, U+001C..U+001F
    and U+0020. *)
Definition ascii_space (c : ascii) : bool :=
  mem_nat (code c) [9; 10; 11; 12; 13; 28; 29; 30; 31; 32]%nat.

(** The white space beyond ASCII, in UTF-8: U+0085 and U+00A0 (two bytes),
    U+1680, U+2000..U+200A, U+2028, U+2029, U+202F, U+205F and U+3000
    (three bytes). *)
Definition space2 (b1 b2 : ascii) : bool :=
  Nat.eqb (code b1) 194 && mem_nat (code b2) [133; 160]%nat.

Definition space3 (b1 b2 b3 : ascii) : bool :=
  (Nat.eqb (code b1) 225 && Nat.eqb (code b2) 154 && Nat.eqb (code b3) 128)
  || (Nat.eqb (code b1) 226 && Nat.eqb (code b2) 128
      && mem_nat (code b3)
           [128; 129; 130; 131; 132; 133; 134; 135; 136; 137; 138;
            168; 169; 175]%nat)
  || (Nat.eqb (code b1) 226 && Nat.eqb (code b2) 129 && Nat.eqb (code b3) 159)
  || (Nat.eqb (code b1) 227 && Nat.eqb (code b2) 128 && Nat.eqb (code b3) 128).

(** [s.lstrip()] on UTF-8 text *)
Fixpoint lstrip (s : string) : string :=
  match s with
  | EmptyString => EmptyString
  | String b1 r1 =>
      if ascii_space b1 then lstrip r1
      else
        match r1 with
        | EmptyString => s
        | String b2 r2 =>
            if space2 b1 b2 then lstrip r2
            else
              match r2 with
              | EmptyString => s
              | String b3 r3 => if space3 b1 b2 b3 then lstrip r3 else s
              end
        end
  end.

(** The same scan on the reversed text, where the bytes of one character
    come last byte first. *)
Fixpoint lstrip_rev (s : string) : string :=
  match s with
  | EmptyString => EmptyString
  | String b1 r1 =>
      if ascii_space b1 then lstrip_rev r1
      else
        match r1 with
        | EmptyString => s
        | String b2 r2 =>
            if space2 b2 b1 then lstrip_rev r2
            else
              match r2 with
              | EmptyString => s
              | String b3 r3 => if space3 b3 b2 b1 then lstrip_rev r3 else s
              end
        end
  end.

Definition rstrip (s : string) : string := rev (lstrip_rev (rev s)).

(** [s.strip()] *)
Definition strip (s : string) : string := rstrip (lstrip s).

(** [s.lower()], as far as the ASCII letters go: no character beyond ASCII
    lowers to one of the letters of the word looked for in it. *)
Definition lower_ascii (c : ascii) : ascii :=
  let n := code c in
  if (65 <=? n)%nat && (n <=? 90)%nat then ascii_of_nat (n + 32) else c.

Fixpoint lower (s : string) : string :=
  match s with
  | EmptyString => EmptyString
  | String c rest => String (lower_ascii c) (lower rest)
  end.

(** What follows the last ["/"] of [s], given what follows the last one seen
    so far. *)
Fixpoint after_last_slash (s acc : string) : string :=
  match s with
  | EmptyString => acc
  | String c rest =>
      if Ascii.eqb c "/"%char then after_last_slash rest rest
      else after_last_slash rest acc
  end.

(** [posixpath.basename] on a string, [p[p.rfind('/') + 1:]]: what
    [os.path.basename] is on a POSIX system.  On Windows [os.path] is
    [ntpath], which also splits at back slashes and drive letters; nothing
    stated below about a base name holds there. *)
Definition basename (p : string) : string := after_last_slash p p.

Definition hex_digit (n : nat) : ascii :=
  if (n <? 10)%nat then ascii_of_nat (48 + n) else ascii_of_nat (87 + n).

(** The two lower-case hexadecimal digits of a byte *)
Definition hex2 (c : ascii) : string :=
  String (hex_digit (code c / 16)) (String (hex_digit (code c mod 16)) "").

Definition of_Z (z : Z) : string := NilZero.string_of_int (Z.to_int z).

End Str.

(** ** Operations on values *)

Module Val.

Fixpoint lookup (k : string) (kvs : pydict) : option pyval :=
  match kvs with
  | [] => None
  | (k', v) :: rest => if String.eqb k' k then Some v else lookup k rest
  end.

Definition has_key (k : string) (kvs : pydict) : bool :=
  match lookup k kvs with
  | Some _ => true
  | None => false
  end.

(** [v == "lit"]: only a string equals a string. *)
Definition eq_str (v : pyval) (lit : string) : bool :=
  match v with
  | PyStr s => String.eqb s lit
  | _ => false
  end.

(** [bool(v)] *)
Definition truthy (v : pyval) : bool :=
  match v with
  | PyNone => false
  | PyBool b => b
  | PyInt z => negb (Z.eqb z 0)
  | PyFloat r => negb (String.eqb r "0.0" || String.eqb r "-0.0")
  | PyStr s => negb (Str.is_empty s)
  | PyList xs => match xs with [] => false | _ :: _ => true end
  | PyDict kvs => match kvs with [] => false | _ :: _ => true end
  end.

(** [a or b] *)
Definition or_else (a b : pyval) : pyval := if truthy a then a else b.

Definition is_dict (v : pyval) : bool :=
  match v with
  | PyDict _ => true
  | _ => false
  end.

(** Lists and dictionaries cannot be hashed. *)
Definition hashable (v : pyval) : bool :=
  match v with
  | PyList _ | PyDict _ => false
  | _ => true
  end.

Definition type_name (v : pyval) : string :=
  match v with
  | PyNone => "NoneType"
  | PyBool _ => "bool"
  | PyInt _ => "int"
  | PyFloat _ => "float"
  | PyStr _ => "str"
  | PyList _ => "list"
  | PyDict _ => "dict"
  end.

(** ["k" in data] *)
Definition contains (k : string) (data : pyval) : result bool :=
  match data with
  | PyDict kvs => Ok (has_key k kvs)
  | PyStr s => Ok (Str.contains k s)
  | PyList xs => Ok (existsb (fun x => eq_str x k) xs)
  | _ =>
      Raise (Exn TypeError
               ("argument of type '" ++ type_name data ++ "' is not iterable"))
  end.

(** [repr] of a string: single quotes unless the text has one and no double
    quote; back slash, the quote in use, and the control characters are
    escaped.  This is Python's [repr] on ASCII text.  Beyond ASCII Python
    escapes the characters its Unicode tables call non-printable (U+00A0 as
    [\xa0], U+200B as [\u200b]); the bytes of every character beyond ASCII
    are kept here, so the [repr] of a list or an object is stated below only
    for values whose strings are ASCII ([renders_exactly]). *)
Fixpoint repr_chars (q : ascii) (s : string) : string :=
  match s with
  | EmptyString => EmptyString
  | String c rest =>
      let n := Str.code c in
      (if Ascii.eqb c "\"%char then "\\"
       else if Ascii.eqb c q then String "\"%char (String q "")
       else if Nat.eqb n 10 then "\n"
       else if Nat.eqb n 13 then "\r"
       else if Nat.eqb n 9 then "\t"
       else if (n <? 32)%nat || Nat.eqb n 127 then "\x" ++ Str.hex2 c
       else String c "")
      ++ repr_chars q rest
  end.

Definition squote : ascii := ascii_of_nat 39.
Definition dquote : ascii := ascii_of_nat 34.

Definition repr_str (s : string) : string :=
  let q :=
    if Str.contains (String squote "") s
       && negb (Str.contains (String dquote "") s)
    then dquote else squote in
  String q (repr_chars q s ++ String q "").

(** [repr(v)]; [str(v)] differs from it on a string only. *)
Fixpoint repr (v : pyval) : string :=
  match v with
  | PyNone => "None"
  | PyBool true => "True"
  | PyBool false => "False"
  | PyInt z => Str.of_Z z
  | PyFloat r => r
  | PyStr s => repr_str s
  | PyList xs => "[" ++ Str.join ", " (map repr xs) ++ "]"
  | PyDict kvs =>
      "{"
      ++ Str.join ", "
           (map (fun kv : string * pyval =>
                   repr_str (fst kv) ++ ": " ++ repr (snd kv)) kvs)
      ++ "}"
  end.

(** [str(v)], what an f-string puts for [{v}] *)
Definition str (v : pyval) : string :=
  match v with
  | PyStr s => s
  | _ => repr v
  end.

(** [data["k"]] for a string key; [str(KeyError(k))] is [repr(k)]. *)
Definition getitem (data : pyval) (k : string) : result pyval :=
  match data with
  | PyDict kvs =>
      match lookup k kvs with
      | Some v => Ok v
      | None => Raise (Exn KeyError (repr_str k))
      end
  | PyStr _ => Raise (Exn TypeError "string indices must be integers")
  | PyList _ =>
      Raise (Exn TypeError "list indices must be integers or slices, not str")
  | _ =>
      Raise (Exn TypeError
               ("'" ++ type_name data ++ "' object is not subscriptable"))
  end.

(** [data.get("k", default)]: only a dictionary has the method. *)
Definition get (data : pyval) (k : string) (default : pyval) : result pyval :=
  match data with
  | PyDict kvs =>
      Ok (match lookup k kvs with Some v => v | None => default end)
  | _ =>
      Raise (Exn AttributeError
               ("'" ++ type_name data ++ "' object has no attribute 'get'"))
  end.

(** [table.get(key, default)] on a dictionary literal with string keys: the
    key is hashed first. *)
Definition table_get (table : list (string * string)) (key : pyval)
  (default : pyval) : result pyval :=
  if hashable key then
    Ok (match key with
        | PyStr s =>
            match find (fun kv => String.eqb (fst kv) s) table with
            | Some kv => PyStr (snd kv)
            | None => default
            end
        | _ => default
        end)
  else Raise (Exn TypeError ("unhashable type: '" ++ type_name key ++ "'")).

(** [v.lower()] *)
Definition lower (v : pyval) : result string :=
  match v with
  | PyStr s => Ok (Str.lower s)
  | _ =>
      Raise (Exn AttributeError
               ("'" ++ type_name v ++ "' object has no attribute 'lower'"))
  end.

(** [os.path.basename(v)] *)
Definition path_basename (v : pyval) : result string :=
  match v with
  | PyStr s => Ok (Str.basename s)
  | _ =>
      Raise (Exn TypeError
               ("expected str, bytes or os.PathLike object, not "
                ++ type_name v))
  end.

End Val.

(** ** [json.dumps(v, ensure_ascii=False)] *)

Module Json.

(** The body of a JSON string: quote, back slash and the control characters
    below U+0020 are escaped, everything else is kept. *)
Fixpoint escape (s : string) : string :=
  match s with
  | EmptyString => EmptyString
  | String c rest =>
      let n := Str.code c in
      (if Ascii.eqb c Val.dquote then String "\"%char (String Val.dquote "")
       else if Ascii.eqb c "\"%char then "\\"
       else if Nat.eqb n 10 then "\n"
       else if Nat.eqb n 13 then "\r"
       else if Nat.eqb n 9 then "\t"
       else if Nat.eqb n 8 then "\b"
       else if Nat.eqb n 12 then "\f"
       else if (n <? 32)%nat then "\u00" ++ Str.hex2 c
       else String c "")
      ++ escape rest
  end.

Definition quoted (s : string) : string :=
  String Val.dquote (escape s ++ String Val.dquote "").

Definition float_text (r : string) : string :=
  if String.eqb r "nan" then "NaN"
  else if String.eqb r "inf" then "Infinity"
  else if String.eqb r "-inf" then "-Infinity"
  else r.

Fixpoint dumps (v : pyval) : string :=
  match v with
  | PyNone => "null"
  | PyBool true => "true"
  | PyBool false => "false"
  | PyInt z => Str.of_Z z
  | PyFloat r => float_text r
  | PyStr s => quoted s
  | PyList xs => "[" ++ Str.join ", " (map dumps xs) ++ "]"
  | PyDict kvs =>
      "{"
      ++ Str.join ", "
           (map (fun kv : string * pyval =>
                   quoted (fst kv) ++ ": " ++ dumps (snd kv)) kvs)
      ++ "}"
  end.

End Json.

(** ** notify.py *)

Module Notify.

Definition PLATFORM_LABELS : list (string * string) :=
  [ ("claude_code", "Claude Code");
    ("copilot_cli", "GitHub Copilot CLI");
    ("cursor", "Cursor");
    ("codex", "Codex");
    ("aider", "Aider");
    ("unknown", "AI Agent") ].

(** Standard input as the script finds it: what [sys.stdin.isatty()] does
    (it raises when there is no standard input at all, [sys.stdin] being
    [None], or when the stream is closed), and what [sys.stdin.read()]
    does. *)
Record stdin_state : Type :=
  { isatty : result bool;
    read : result string }.

(** The test on the terminal stands outside the [try]: what it raises
    leaves the function; what [read] raises is caught. *)
Definition _read_stdin (stdin : stdin_state) : result string :=
  tty <- isatty stdin ;;
  if tty then Ok ""
  else try_except (read stdin) (fun _ => Ok "").

(** The dictionary [{"platform": p, "event": e, "message": m}] *)
Definition event_dict (p : string) (e m : pyval) : pydict :=
  [ ("platform", PyStr p); ("event", e); ("message", m) ].

Definition reason_messages : list (string * string) :=
  [ ("complete", "Task completed");
    ("error", "Session ended with error");
    ("abort", "Session aborted");
    ("timeout", "Session timed out");
    ("user_exit", "User exited session") ].

Definition result_messages (tool : pyval) : list (string * string) :=
  [ ("success", "Tool '" ++ Val.str tool ++ "' completed successfully");
    ("failure", "Tool '" ++ Val.str tool ++ "' failed");
    ("denied", "Tool '" ++ Val.str tool ++ "' was denied") ].

(** [a and b], [a or b] on tests that may raise: the right one is evaluated
    only when the left one does not decide. *)
Definition and_then (a : result bool) (b : result bool) : result bool :=
  x <- a ;; if x then b else Ok false.

Definition or_else (a : result bool) (b : result bool) : result bool :=
  x <- a ;; if x then Ok true else b.

Definition absent (k : string) (data : pyval) : result bool :=
  x <- Val.contains k data ;; Ok (negb x).

(** The message of the [hook_event_name] family *)
Definition hook_message (data hook_event status : pyval) : result pyval :=
  if Val.eq_str hook_event "sessionEnd" || Val.eq_str hook_event "stop" then
    Ok (PyStr (if Val.eq_str status "completed"
               then "Task completed" else "Session ended"))
  else if Val.eq_str hook_event "postToolUse" then
    tool <- Val.get data "tool_name" (PyStr "tool") ;;
    Ok (PyStr ("Tool '" ++ Val.str tool ++ "' finished"))
  else if Val.eq_str hook_event "afterFileEdit" then
    file <- Val.get data "file_path" (PyStr "file") ;;
    base <- Val.path_basename file ;;
    Ok (PyStr ("Edited " ++ base))
  else Ok hook_event.

(** The detectors of [parse_input], in the order of the source, on the
    decoded document. *)
Definition detect (data : pyval) : result pydict :=
  (* Claude Code *)
  has_ntype <- Val.contains "notification_type" data ;;
  if has_ntype then
    ntype <- Val.getitem data "notification_type" ;;
    msg <- Val.get data "message" (PyStr "") ;;
    let event_msg :=
      if Val.eq_str ntype "idle_prompt" then
        PyStr "✅ Task completed — waiting for your input"
      else if Val.eq_str ntype "permission_prompt" then
        PyStr "🔐 Permission required"
      else Val.or_else msg ntype in
    Ok (event_dict "claude_code" ntype event_msg)
  else
  (* Copilot CLI, sessionEnd *)
  session_end <- and_then (Val.contains "reason" data) (absent "toolName" data) ;;
  if session_end then
    reason <- Val.getitem data "reason" ;;
    event_msg <- Val.table_get reason_messages reason
                   (PyStr ("Session ended (" ++ Val.str reason ++ ")")) ;;
    Ok (event_dict "copilot_cli" (PyStr "sessionEnd") event_msg)
  else
  (* Copilot CLI, postToolUse *)
  post_tool <- and_then (Val.contains "toolName" data)
                 (Val.contains "toolResult" data) ;;
  if post_tool then
    tool <- Val.getitem data "toolName" ;;
    res <- Val.getitem data "toolResult" ;;
    result_type <- (if Val.is_dict res
                    then Val.get res "resultType" (PyStr "")
                    else Ok (PyStr "")) ;;
    event_msg <- Val.table_get (result_messages tool) result_type
                   (PyStr ("Tool '" ++ Val.str tool ++ "' finished")) ;;
    Ok (event_dict "copilot_cli" (PyStr "postToolUse") event_msg)
  else
  (* Copilot CLI, sessionStart *)
  session_start <- and_then (Val.contains "source" data)
                     (and_then (absent "toolName" data)
                        (absent "notification_type" data)) ;;
  if session_start then
    source <- Val.getitem data "source" ;;
    Ok (event_dict "copilot_cli" (PyStr "sessionStart")
          (PyStr ("Session started (" ++ Val.str source ++ ")")))
  else
  (* Cursor and other platforms *)
  hook_event <- Val.get data "hook_event_name" (PyStr "") ;;
  if Val.truthy hook_event then
    status <- Val.get data "status" (PyStr "") ;;
    event_msg <- hook_message data hook_event status ;;
    agent <- Val.get data "agent" (PyStr "") ;;
    lowered <- Val.lower agent ;;
    let plat := if Str.contains "cursor" lowered
                then "cursor" else "copilot_cli" in
    Ok (event_dict plat hook_event event_msg)
  else
  (* Codex *)
  codex <- or_else (Val.contains "agent-turn-complete" data)
             (ty <- Val.get data "type" PyNone ;;
              Ok (Val.eq_str ty "agent-turn-complete")) ;;
  if codex then
    msg <- Val.get data "message" (PyStr "Agent turn completed") ;;
    Ok (event_dict "codex" (PyStr "agent-turn-complete") msg)
  else
  (* Fallback *)
  msg <- Val.get data "message" (PyStr (Json.dumps data)) ;;
  Ok (event_dict "unknown" (PyStr "notification") msg).

(** [parse_input()], given standard input, [sys.argv] and what
    [json.loads(raw)] does on the stripped text when it is reached. *)
Definition parse_input (stdin : stdin_state) (argv : list string)
  (loads : result pyval) : result pydict :=
  text <- _read_stdin stdin ;;
  let raw := Str.strip text in
  if Str.is_empty raw && (1 <? length argv)%nat then
    Ok (event_dict "aider" (PyStr "notification")
          (PyStr (Str.join " " (tl argv))))
  else if Str.is_empty raw then
    Ok (event_dict "unknown" (PyStr "notification") (PyStr ""))
  else
    match loads with
    | Ok data => detect data
    | Raise e =>
        if exn_kind_eqb (kind e) JSONDecodeError then
          (* not JSON: the text is the message *)
          Ok (event_dict "unknown" (PyStr "notification") (PyStr raw))
        else Raise e
    end.

(** *** Configuration *)

(** One candidate path of [CONFIG_SEARCH_PATHS] on disk: whether
    [os.path.isfile] holds of it, and what opening it and [json.load] do. *)
Record path_state : Type :=
  { is_file : bool;
    load : result pyval }.

Definition default_config : pyval :=
  PyDict
    [ ("channels",
       PyDict
         [ ("sound",
            PyDict [ ("enabled", PyBool true);
                     ("file", PyStr "/System/Library/Sounds/Glass.aiff") ]);
           ("macos_notification", PyDict [ ("enabled", PyBool true) ]) ]) ].

(** [load_config()], on the states of the search paths in their order *)
Fixpoint load_config (paths : list path_state) : result pyval :=
  match paths with
  | [] => Ok default_config
  | p :: rest => if is_file p then load p else load_config rest
  end.

(** *** Formatting *)

Definition _format_title (event_info : pydict) : result string :=
  p <- Val.getitem (PyDict event_info) "platform" ;;
  label <- Val.table_get PLATFORM_LABELS p p ;;
  Ok ("Agent Notifier — " ++ Val.str label).

Definition _format_body (event_info : pydict) : result pyval :=
  m <- Val.getitem (PyDict event_info) "message" ;;
  if Val.truthy m then Ok m else Val.getitem (PyDict event_info) "event".

(** *** Dispatch *)

Definition CHANNEL_SENDERS : list string :=
  [ "sound"; "macos_notification"; "telegram"; "email"; "slack"; "discord" ].

Definition known_channel (name : string) : bool :=
  existsb (String.eqb name) CHANNEL_SENDERS.

(** What the process leaves behind: the lines written to the two output
    streams, and the channels whose sender returned. *)
Record world : Type :=
  { stdout : list string;
    stderr : list string;
    delivered : list string }.

Definition quiet : world := {| stdout := []; stderr := []; delivered := [] |}.

Definition print_stderr (line : string) (w : world) : world :=
  {| stdout := stdout w;
     stderr := stderr w ++ [line];
     delivered := delivered w |}.

Definition mark_delivered (name : string) (w : world) : world :=
  {| stdout := stdout w;
     stderr := stderr w;
     delivered := delivered w ++ [name] |}.

(** [channels.items()] *)
Definition items (channels : pyval) : result (list (string * pyval)) :=
  match channels with
  | PyDict kvs => Ok kvs
  | _ =>
      Raise (Exn AttributeError
               ("'" ++ Val.type_name channels
                ++ "' object has no attribute 'items'"))
  end.

(** The list comprehension of [main]: the channels that are enabled and have
    a sender. *)
Fixpoint select_enabled (channels : list (string * pyval))
  : result (list (string * pyval)) :=
  match channels with
  | [] => Ok []
  | (name, cfg) :: rest =>
      flag <- Val.get cfg "enabled" PyNone ;;
      selected <- select_enabled rest ;;
      Ok (if Val.truthy flag && known_channel name
          then (name, cfg) :: selected else selected)
  end.

Fixpoint remove_nth {A : Type} (i : nat) (l : list A) : list A :=
  match l, i with
  | [], _ => []
  | _ :: rest, O => rest
  | x :: rest, S j => x :: remove_nth j rest
  end.

Section Dispatch.

(** The sender registered under a channel name, run on the channel's
    configuration and the event: it returns, or raises. *)
Variable send : string -> pyval -> pydict -> result unit.

(** The order in which the pool's workers get to run: at each step, which of
    the tasks still pending goes next. *)
Variable pick : nat -> nat.

(** [CHANNEL_SENDERS[name]] *)
Definition sender_of (name : string) : result (pyval -> pydict -> result unit) :=
  if known_channel name then Ok (send name)
  else Raise (Exn KeyError (Val.repr_str name)).

Definition _dispatch (event_info : pydict) (name_cfg : string * pyval)
  (w : world) : result world :=
  let '(name, cfg) := name_cfg in
  try_except
    (sender <- sender_of name ;;
     _ <- sender cfg event_info ;;
     Ok (mark_delivered name w))
    (fun exc =>
       Ok (print_stderr
             ("[agent-notifier] " ++ name ++ " failed: " ++ text exc) w)).

(** [pool.map(_dispatch, enabled)] and the wait at the end of the [with]
    block: every task runs once, one after the other in the order [pick]
    gives; what a task raises stays in its future, which nobody reads.  A
    task is one step, its [print] included: the error stream is followed
    line by line, as it comes out when at most one task prints or when the
    stream writes a line at a time; the interleaving of the text of one
    line with another's on an unbuffered stream is below this grain, and
    nothing is stated below about the lines of two failing tasks. *)
Fixpoint pool_map (steps : nat) (event_info : pydict)
  (pending : list (string * pyval)) (w : world) : world :=
  match steps with
  | O => w
  | S steps' =>
      match pending with
      | [] => w
      | first :: _ =>
          let i := pick steps' mod length pending in
          let w' := match _dispatch event_info (nth i pending first) w with
                    | Ok w' => w'
                    | Raise _ => w
                    end in
          pool_map steps' event_info (remove_nth i pending) w'
      end
  end.

(** The [with ThreadPoolExecutor(...)] block of [main] *)
Definition dispatch_all (event_info : pydict)
  (enabled : list (string * pyval)) (w : world) : world :=
  pool_map (length enabled) event_info enabled w.

(** [main()]: the value it returns and the output it has produced. *)
Definition main (stdin : stdin_state) (argv : list string)
  (loads : result pyval) (paths : list path_state) : result (Z * world) :=
  event_info <- parse_input stdin argv loads ;;
  config <- load_config paths ;;
  channels <- Val.get config "channels" (PyDict []) ;;
  channel_items <- items channels ;;
  enabled <- select_enabled channel_items ;;
  match enabled with
  | [] => Ok (0%Z, quiet)
  | _ :: _ => Ok (0%Z, dispatch_all event_info enabled quiet)
  end.

(** [sys.exit(main())]: the status the process ends with; an exception that
    leaves [main] ends it with status 1. *)
Definition exit_status (stdin : stdin_state) (argv : list string)
  (loads : result pyval) (paths : list path_state) : Z :=
  match main stdin argv loads paths with
  | Ok (status, _) => status
  | Raise _ => 1%Z
  end.

End Dispatch.

(** *** Reading a run *)

(** Standard input piped from a file or a process holding [text] *)
Definition piped (text : string) : stdin_state :=
  {| isatty := Ok false; read := Ok text |}.

(** Standard input holding the JSON text of [v] *)
Definition piped_json (v : pyval) : stdin_state := piped (Json.dumps v).

(** The stripped text [raw] of [parse_input], when [_read_stdin] returns *)
Definition raw_of (stdin : stdin_state) : string :=
  match _read_stdin stdin with
  | Ok text => Str.strip text
  | Raise _ => ""
  end.

(** A field of the event a call returned, if it returned one *)
Definition field (k : string) (r : result pydict) : option pyval :=
  match r with
  | Ok ev => Val.lookup k ev
  | Raise _ => None
  end.

(** The label of a platform tag in [PLATFORM_LABELS], if it has one *)
Definition label_of (tag : string) : option string :=
  option_map snd (find (fun kv => String.eqb (fst kv) tag) PLATFORM_LABELS).

(** What calling the sender of one enabled channel does: the body of the
    [try] of [_dispatch]. *)
Definition attempt (send : string -> pyval -> pydict -> result unit)
  (event_info : pydict) (name_cfg : string * pyval) : result unit :=
  sender <- sender_of send (fst name_cfg) ;;
  sender (snd name_cfg) event_info.

Definition diagnostic (name : string) (exc : exn) : string :=
  "[agent-notifier] " ++ name ++ " failed: " ++ text exc.

(** The diagnostic lines owed to a list of channels, and the channels of it
    whose sender returns, both in the order of the list. *)
Definition diagnostics (send : string -> pyval -> pydict -> result unit)
  (event_info : pydict) (channels : list (string * pyval)) : list string :=
  flat_map (fun t => match attempt send event_info t with
                     | Ok _ => []
                     | Raise exc => [ diagnostic (fst t) exc ]
                     end) channels.

Definition successes (send : string -> pyval -> pydict -> result unit)
  (event_info : pydict) (channels : list (string * pyval)) : list string :=
  flat_map (fun t => match attempt send event_info t with
                     | Ok _ => [ fst t ]
                     | Raise _ => []
                     end) channels.

(** A candidate path with no file, and one whose file is not JSON *)
Definition no_file : path_state :=
  {| is_file := false;
     load := Raise (Exn OSError "No such file or directory") |}.

Definition broken_file : path_state :=
  {| is_file := true;
     load := Raise (Exn JSONDecodeError "Expecting value") |}.

End Notify.

Import Notify.

(** ** The senders of notify.py *)

Module Senders.

(** What [subprocess.Popen] does with a command line: the process starts,
    the program is not found ([FileNotFoundError]), or the call raises
    something else. *)
Inductive spawn_outcome : Type :=
| Started
| NotFound (description : string)
| SpawnRaises (e : exn).

(** A request built by [Request(url, data=json.dumps(payload).encode(),
    headers={"Content-Type": "application/json"})] and opened with
    [urlopen(req, timeout=...)]. *)
Record request : Type :=
  { url : pyval;
    payload : pyval;
    timeout : Z }.

(** The mail of [send_email]: the session [smtplib.SMTP(host, port,
    timeout=...)], [starttls], [login] and [sendmail] of a text message. *)
Record mail : Type :=
  { smtp_host : pyval;
    smtp_port : pyval;
    smtp_timeout : Z;
    username : pyval;
    password : pyval;
    from_addr : pyval;
    to_addr : pyval;
    subject : string;
    mail_body : string }.

(** The machine the script runs on, as the senders meet it. *)
Record host : Type :=
  { system : string;
    popen : list pyval -> spawn_outcome;
    urlopen : request -> result unit;
    smtp : mail -> result unit }.

(** A call a sender makes to the outside. *)
Inductive action : Type :=
| Spawn (command : list pyval)
| Post (r : request)
| Mail (m : mail).

(** What a sender did: the calls it made, in order, and how it ended. *)
Definition outcome : Type := (list action * result unit)%type.

Definition done : outcome := ([], Ok tt).

Definition fail (e : exn) : outcome := ([], Raise e).

(** A step that makes no call, then the rest *)
Definition after {A : Type} (r : result A) (k : A -> outcome) : outcome :=
  match r with
  | Ok a => k a
  | Raise e => fail e
  end.

(** [subprocess.Popen(command, ...)] where nothing is caught *)
Definition spawn (h : host) (command : list pyval) : outcome :=
  ([ Spawn command ],
   match popen h command with
   | Started => Ok tt
   | NotFound d => Raise (Exn OSError d)
   | SpawnRaises e => Raise e
   end).

Definition default_sound : string := "/System/Library/Sounds/Glass.aiff".

(** The loop of [send_sound] on Linux: the first player that starts ends it;
    a player that is not found is passed over. *)
Fixpoint try_players (h : host) (players : list string) (sound_file : pyval)
  : outcome :=
  match players with
  | [] => done
  | player :: rest =>
      let command := [ PyStr player; sound_file ] in
      match popen h command with
      | Started => ([ Spawn command ], Ok tt)
      | NotFound _ =>
          let '(calls, r) := try_players h rest sound_file in
          (Spawn command :: calls, r)
      | SpawnRaises e => ([ Spawn command ], Raise e)
      end
  end.

Definition send_sound (h : host) (cfg : pyval) (_event_info : pydict)
  : outcome :=
  after (Val.get cfg "file" (PyStr default_sound)) (fun sound_file =>
  if String.eqb (system h) "Darwin" then
    spawn h [ PyStr "afplay"; sound_file ]
  else if String.eqb (system h) "Linux" then
    try_players h [ "paplay"; "aplay" ] sound_file
  else done).

(** [s.replace('"', '\\"')] *)
Fixpoint escape_quotes (s : string) : string :=
  match s with
  | EmptyString => EmptyString
  | String c rest =>
      if Ascii.eqb c Val.dquote
      then String "\"%char (String Val.dquote (escape_quotes rest))
      else String c (escape_quotes rest)
  end.

(** [v.replace('"', '\\"')] on a value: only a string has the method. *)
Definition replace_quotes (v : pyval) : result string :=
  match v with
  | PyStr s => Ok (escape_quotes s)
  | _ =>
      Raise (Exn AttributeError
               ("'" ++ Val.type_name v ++ "' object has no attribute 'replace'"))
  end.

Definition quote : string := String Val.dquote "".

Definition send_macos_notification (h : host) (cfg : pyval)
  (event_info : pydict) : outcome :=
  if negb (String.eqb (system h) "Darwin") then done
  else
    after (_format_title event_info) (fun title =>
    after (_format_body event_info) (fun body0 =>
    after (replace_quotes body0) (fun body =>
    let title := escape_quotes title in
    let script :=
      "display notification " ++ quote ++ body ++ quote
      ++ " with title " ++ quote ++ title ++ quote in
    spawn h [ PyStr "osascript"; PyStr "-e"; PyStr script ]))).

Definition newline : string := String (ascii_of_nat 10) "".

(** [urlopen(Request(...), timeout=10)] *)
Definition post (h : host) (r : request) : outcome :=
  ([ Post r ], urlopen h r).

Definition send_telegram (h : host) (cfg : pyval) (event_info : pydict)
  : outcome :=
  after (Val.get cfg "bot_token" (PyStr "")) (fun token =>
  after (Val.get cfg "chat_id" (PyStr "")) (fun chat_id =>
  if negb (Val.truthy token) || negb (Val.truthy chat_id) then done
  else
    after (_format_title event_info) (fun title =>
    after (_format_body event_info) (fun body =>
    let text := "*" ++ title ++ "*" ++ newline ++ Val.str body in
    let target :=
      "https://api.telegram.org/bot" ++ Val.str token ++ "/sendMessage" in
    post h {| url := PyStr target;
              payload := PyDict [ ("chat_id", chat_id);
                                  ("text", PyStr text);
                                  ("parse_mode", PyStr "Markdown") ];
              timeout := 10 |})))).

(** [MIMEText(body)]: the text must be a string. *)
Definition mime_text (body : pyval) : result string :=
  match body with
  | PyStr s => Ok s
  | _ =>
      Raise (Exn AttributeError
               ("'" ++ Val.type_name body ++ "' object has no attribute 'encode'"))
  end.

Definition send_email (h : host) (cfg : pyval) (event_info : pydict)
  : outcome :=
  after (Val.get cfg "smtp_host" (PyStr "")) (fun host_name =>
  after (Val.get cfg "smtp_port" (PyInt 587)) (fun port =>
  after (Val.get cfg "username" (PyStr "")) (fun user =>
  after (Val.get cfg "password" (PyStr "")) (fun pass =>
  after (Val.get cfg "from_addr" user) (fun sender =>
  after (Val.get cfg "to_addr" (PyStr "")) (fun recipient =>
  if negb (forallb Val.truthy [ host_name; user; pass; recipient ]) then done
  else
    after (_format_title event_info) (fun title =>
    after (_format_body event_info) (fun body =>
    after (mime_text body) (fun text =>
    let m := {| smtp_host := host_name;
                smtp_port := port;
                smtp_timeout := 10;
                username := user;
                password := pass;
                from_addr := sender;
                to_addr := recipient;
                subject := "[Agent Notifier] " ++ title;
                mail_body := text |} in
    ([ Mail m ], smtp h m)))))))))).

Definition send_slack (h : host) (cfg : pyval) (event_info : pydict)
  : outcome :=
  after (Val.get cfg "webhook_url" (PyStr "")) (fun webhook_url =>
  if negb (Val.truthy webhook_url) then done
  else
    after (_format_title event_info) (fun title =>
    after (_format_body event_info) (fun body =>
    post h {| url := webhook_url;
              payload :=
                PyDict [ ("text",
                          PyStr ("*" ++ title ++ "*" ++ newline
                                 ++ Val.str body)) ];
              timeout := 10 |}))).

Definition send_discord (h : host) (cfg : pyval) (event_info : pydict)
  : outcome :=
  after (Val.get cfg "webhook_url" (PyStr "")) (fun webhook_url =>
  if negb (Val.truthy webhook_url) then done
  else
    after (_format_title event_info) (fun title =>
    after (_format_body event_info) (fun body =>
    post h {| url := webhook_url;
              payload :=
                PyDict [ ("content",
                          PyStr ("**" ++ title ++ "**" ++ newline
                                 ++ Val.str body)) ];
              timeout := 10 |}))).

(** The table [CHANNEL_SENDERS], from a channel name to its sender *)
Definition channel_senders
  : list (string * (host -> pyval -> pydict -> outcome)) :=
  [ ("sound", send_sound);
    ("macos_notification", send_macos_notification);
    ("telegram", send_telegram);
    ("email", send_email);
    ("slack", send_slack);
    ("discord", send_discord) ].

Definition sender_named (name : string)
  : option (host -> pyval -> pydict -> outcome) :=
  option_map snd (find (fun entry => String.eqb (fst entry) name)
                    channel_senders).

(** The senders of the script as [_dispatch] calls them on a host: how the
    call under [name] ends.  A name outside the table never gets here,
    [CHANNEL_SENDERS[name]] raises first. *)
Definition send_on (h : host) (name : string) (cfg : pyval)
  (event_info : pydict) : result unit :=
  match sender_named name with
  | Some sender => snd (sender h cfg event_info)
  | None => Ok tt
  end.

(** The network requests among the calls of a sender *)
Definition timeouts (calls : list action) : list Z :=
  flat_map (fun a => match a with
                     | Spawn _ => []
                     | Post r => [ timeout r ]
                     | Mail m => [ smtp_timeout m ]
                     end) calls.

End Senders.

(** ** Reading payloads and configurations *)

Module Reading.

(** The text is made of one-byte white space only. *)
Fixpoint blank (s : string) : bool :=
  match s with
  | EmptyString => true
  | String c rest => Str.ascii_space c && blank rest
  end.

(** None of the keys is in the object. *)
Definition lacks (keys : list string) (kvs : pydict) : bool :=
  forallb (fun k => negb (Val.has_key k kvs)) keys.

(** The value [cfg.get(k, default)] of an object *)
Definition setting (cfg : pydict) (k : string) (default : pyval) : pyval :=
  match Val.lookup k cfg with
  | Some v => v
  | None => default
  end.

(** Whether the comprehension of [main] keeps a channel whose configuration
    is an object. *)
Definition kept (channel : string * pyval) : bool :=
  match snd channel with
  | PyDict cfg =>
      Val.truthy (setting cfg "enabled" PyNone) && known_channel (fst channel)
  | _ => false
  end.

(** The text has no byte beyond ASCII. *)
Fixpoint ascii_text (s : string) : bool :=
  match s with
  | EmptyString => true
  | String c rest => (Str.code c <? 128)%nat && ascii_text rest
  end.

(** The strings inside a value, and the keys of its objects, are ASCII. *)
Fixpoint ascii_inside (v : pyval) : bool :=
  match v with
  | PyStr s => ascii_text s
  | PyList xs => forallb ascii_inside xs
  | PyDict kvs =>
      forallb (fun kv : string * pyval =>
                 ascii_text (fst kv) && ascii_inside (snd kv)) kvs
  | _ => true
  end.

(** The values on which [Val.str] is Python's [str]: a string, which is its
    own text whatever it holds, a number, a boolean, [None], and a list or
    an object whose strings are ASCII. *)
Definition renders_exactly (v : pyval) : bool :=
  match v with
  | PyStr _ => true
  | _ => ascii_inside v
  end.

(** The keys tested by the detectors that come before the hook family *)
Definition early_keys : list string :=
  [ "notification_type"; "reason"; "toolName"; "source" ].

(** The platforms [parse_input] can name *)
Definition platforms : list string :=
  [ "aider"; "unknown"; "claude_code"; "copilot_cli"; "cursor"; "codex" ].

(** Whether a command started, and whether starting it raised something
    other than [FileNotFoundError] *)
Definition started (o : Senders.spawn_outcome) : bool :=
  match o with
  | Senders.Started => true
  | _ => false
  end.

Definition spawn_raised (o : Senders.spawn_outcome) : bool :=
  match o with
  | Senders.SpawnRaises _ => true
  | _ => false
  end.

(** The settings without which [send_email] does nothing *)
Definition mail_settings : list string :=
  [ "smtp_host"; "username"; "password"; "to_addr" ].

(** A host of another system, where nothing can be spawned or reached *)
Definition bare_host : Senders.host :=
  {| Senders.system := "Windows";
     Senders.popen := fun _ => Senders.NotFound "not found";
     Senders.urlopen := fun _ => Raise (Exn OSError "unreachable");
     Senders.smtp := fun _ => Raise (Exn OSError "unreachable") |}.

(** A Linux host with ALSA's player only, and a working network *)
Definition alsa_host : Senders.host :=
  {| Senders.system := "Linux";
     Senders.popen :=
       fun command =>
         match command with
         | PyStr "aplay" :: _ => Senders.Started
         | _ => Senders.NotFound "[Errno 2] No such file or directory"
         end;
     Senders.urlopen := fun _ => Ok tt;
     Senders.smtp := fun _ => Ok tt |}.

End Reading.

Import Reading.

(** ** Payloads and runs used below *)

Module Cases.

Definition argv0 : list string := [ "notify.py" ].

(** The payload of the repository's test [test_copilot_session_end_has_project] *)
Definition session_end_payload : pyval :=
  PyDict [ ("reason", PyStr "complete"); ("cwd", PyStr "/dev/my-project") ].

(** The payload of the repository's test [test_opencode_session_idle] *)
Definition opencode_payload : pyval :=
  PyDict [ ("platform", PyStr "opencode");
           ("event_type", PyStr "session.idle");
           ("message", PyStr "Session completed") ].

(** A tool result that also names a notification type *)
Definition typed_tool_payload : pyval :=
  PyDict [ ("notification_type", PyStr "idle_prompt");
           ("toolName", PyStr "bash");
           ("toolResult", PyDict [ ("resultType", PyStr "success") ]) ].

(** A tool result with [reason] and [source] beside it *)
Definition crowded_tool_payload : pydict :=
  [ ("toolName", PyStr "bash");
    ("toolResult", PyDict [ ("resultType", PyStr "denied") ]);
    ("reason", PyStr "complete");
    ("source", PyStr "terminal") ].

(** A session end that also names a notification type *)
Definition typed_reason_payload : pyval :=
  PyDict [ ("notification_type", PyStr "idle_prompt");
           ("reason", PyStr "complete") ].

Definition timeout_payload : pydict :=
  [ ("reason", PyStr "timeout"); ("source", PyStr "terminal") ].

(** The scenario of the specification: a mapped type with a message *)
Definition idle_done_payload : pydict :=
  [ ("notification_type", PyStr "idle_prompt"); ("message", PyStr "Done") ].

Definition idle_text : string := "✅ Task completed — waiting for your input".

Definition permission_text : string := "🔐 Permission required".

(** An event of a platform the label table does not list *)
Definition opencode_event : pydict :=
  event_dict "opencode" (PyStr "session.idle") (PyStr "Session completed").

(** An event with no message, of the platform [unknown] *)
Definition silent_event : pydict :=
  event_dict "unknown" (PyStr "idle_prompt") (PyStr "").

(** The event of the repository's test [test_with_project] *)
Definition project_event : pydict :=
  [ ("message", PyStr "Task completed");
    ("event", PyStr "idle");
    ("project", PyStr "my-app") ].

(** The event of the repository's test
    [test_falls_back_to_event_when_no_message] *)
Definition quiet_project_event : pydict :=
  [ ("message", PyStr "");
    ("event", PyStr "idle_prompt");
    ("project", PyStr "proj") ].



Definition telegram_cfg : pyval :=
  PyDict [ ("enabled", PyBool true);
           ("bot_token", PyStr "t"); ("chat_id", PyStr "c") ].

Definition telegram_down (name : string) (cfg : pyval) (ev : pydict)
  : result unit :=
  if String.eqb name "telegram"
  then Raise (Exn OSError "<urlopen error timed out>")
  else Ok tt.


Definition second_first (step : nat) : nat := 1%nat.

End Cases.

Import Cases.

(** * Properties *)

(** ** Normalisation on documents that are not objects *)

Lemma parse_input_decoded (stdin : stdin_state) (argv : list string)
  (data : pyval) :
  Str.is_empty (raw_of stdin) = false ->
  parse_input stdin argv (Ok data) = detect data.
Proof.
  intros Hraw. unfold parse_input. unfold raw_of in Hraw.
  destruct (_read_stdin stdin) as [text | e]; [ | discriminate Hraw ].
  cbn [bind]. cbv zeta. rewrite Hraw. reflexivity.
Qed.

(** A decoded document that is not an object makes the detectors raise: a
    number, a boolean or [null] at the first membership test, a string or a
    list at the first subscript or [get]. *)
Lemma detect_non_object_raises (data : pyval) :
  Val.is_dict data = false -> returns (detect data) = false.
Proof.
  intros Hd. destruct data; try discriminate Hd; try reflexivity.
  - unfold detect. cbn [Val.contains bind absent and_then or_else].
    repeat (match goal with
            | |- context [if ?b then _ else _] => destruct b
            end; cbn [bind Val.getitem Val.get negb returns]);
      reflexivity.
  - unfold detect. cbn [Val.contains bind absent and_then or_else].
    repeat (match goal with
            | |- context [if ?b then _ else _] => destruct b
            end; cbn [bind Val.getitem Val.get negb returns]);
      reflexivity.
Qed.

Lemma parse_input_non_object_raises (stdin : stdin_state)
  (argv : list string) (data : pyval) :
  Str.is_empty (raw_of stdin) = false ->
  Val.is_dict data = false ->
  returns (parse_input stdin argv (Ok data)) = false.
Proof.
  intros Hraw Hd. rewrite (parse_input_decoded _ _ _ Hraw).
  apply detect_non_object_raises. exact Hd.
Qed.

(** Text that is not JSON, for its part, is taken as the message. *)
Lemma parse_input_plain_text (stdin : stdin_state) (argv : list string)
  (e : exn) :
  Str.is_empty (raw_of stdin) = false ->
  kind e = JSONDecodeError ->
  parse_input stdin argv (Raise e)
  = Ok (event_dict "unknown" (PyStr "notification") (PyStr (raw_of stdin))).
Proof.
  intros Hraw Hk. unfold parse_input. unfold raw_of in *.
  destruct (_read_stdin stdin) as [text | e']; [ | discriminate Hraw ].
  cbn [bind]. cbv zeta. rewrite Hraw, Hk. reflexivity.
Qed.

(** C1 (the code departs from it): on the standard input [5], a JSON document
    that is a bare number, [parse_input] raises [TypeError] at its first
    membership test instead of returning an event. *)
Theorem parse_input_bare_number_raises :
  raised_kind (parse_input (piped_json (PyInt 5)) argv0 (Ok (PyInt 5)))
  = Some TypeError.
Proof. vm_compute. reflexivity. Qed.

(** ** What an event carries *)

(** Every event a detector returns is a dictionary of exactly the three keys
    [platform], [event] and [message]. *)
Lemma detect_three_keys (data : pyval) (ev : pydict) :
  detect data = Ok ev -> exists p e m, ev = event_dict p e m.
Proof.
  unfold detect, hook_message, and_then, or_else, absent.
  intros H.
  repeat
    (match type of H with
     | bind ?r _ = Ok _ =>
         let E := fresh "E" in
         destruct r eqn:E; cbn [bind] in H; [ | discriminate H ]
     | (if ?b then _ else _) = Ok _ => destruct b
     end);
    injection H as <-; eexists _, _, _; reflexivity.
Qed.

Lemma parse_input_three_keys (stdin : stdin_state) (argv : list string)
  (loads : result pyval) (ev : pydict) :
  parse_input stdin argv loads = Ok ev -> exists p e m, ev = event_dict p e m.
Proof.
  unfold parse_input. intros H.
  destruct (_read_stdin stdin) as [text | e0]; cbn [bind] in H;
    [ cbv zeta in H | discriminate H ].
  destruct (Str.is_empty _ && _).
  { injection H as <-. eexists _, _, _; reflexivity. }
  destruct (Str.is_empty _).
  { injection H as <-. eexists _, _, _; reflexivity. }
  destruct loads as [data | e].
  - eapply detect_three_keys; eassumption.
  - destruct (exn_kind_eqb _ _); [ | discriminate H ].
    injection H as <-. eexists _, _, _; reflexivity.
Qed.

(** No event [parse_input] returns has a [project] key. *)
Lemma parse_input_never_sets_project (stdin : stdin_state)
  (argv : list string) (loads : result pyval) (ev : pydict) :
  parse_input stdin argv loads = Ok ev -> Val.lookup "project" ev = None.
Proof.
  intros H. apply parse_input_three_keys in H.
  destruct H as (p & e & m & ->). reflexivity.
Qed.

(** C2 (the code departs from it): on the payload with [reason] and a [cwd]
    hint, [parse_input] returns the session-end event with no [project] key at
    all; no step of the script resolves a project from the hint, the working
    directory or the repository. *)
Theorem parse_input_session_end_has_no_project :
  parse_input (piped_json session_end_payload) argv0
    (Ok session_end_payload)
  = Ok (event_dict "copilot_cli" (PyStr "sessionEnd") (PyStr "Task completed"))
  /\ field "project"
       (parse_input (piped_json session_end_payload) argv0
          (Ok session_end_payload)) = None.
Proof. split; vm_compute; reflexivity. Qed.

(** C6 (the code departs from it): the payload tagged [opencode] with the
    idle-session event type matches no detector and comes out of the fallback
    as platform [unknown], event [notification], with its own message. *)
Theorem parse_input_opencode_falls_through :
  parse_input (piped_json opencode_payload) argv0 (Ok opencode_payload)
  = Ok (event_dict "unknown" (PyStr "notification")
          (PyStr "Session completed")).
Proof. vm_compute. reflexivity. Qed.

(** C7 (the code departs from it): a payload whose [notification_type] is the
    empty string comes back with the empty string as its event kind. *)
Theorem parse_input_empty_notification_type :
  parse_input (piped_json (PyDict [ ("notification_type", PyStr "") ]))
    argv0 (Ok (PyDict [ ("notification_type", PyStr "") ]))
  = Ok (event_dict "claude_code" (PyStr "") (PyStr "")).
Proof. vm_compute. reflexivity. Qed.

(** A [notification_type] that is a number comes back as the event kind
    too, where the docstring of [parse_input] promises a string. *)
Lemma parse_input_numeric_notification_type :
  parse_input (piped_json (PyDict [ ("notification_type", PyInt 5) ]))
    argv0 (Ok (PyDict [ ("notification_type", PyInt 5) ]))
  = Ok (event_dict "claude_code" (PyInt 5) (PyInt 5)).
Proof. vm_compute. reflexivity. Qed.

(** An empty [hook_event_name], for its part, is skipped by the test on it
    and the payload falls through to the default kind. *)
Lemma parse_input_empty_hook_event_name :
  parse_input (piped_json (PyDict [ ("hook_event_name", PyStr "") ]))
    argv0 (Ok (PyDict [ ("hook_event_name", PyStr "") ]))
  = Ok (event_dict "unknown" (PyStr "notification")
          (PyStr (Json.dumps (PyDict [ ("hook_event_name", PyStr "") ])))).
Proof. vm_compute. reflexivity. Qed.

(** ** The order of the detectors *)

Lemma has_key_lookup (k : string) (kvs : pydict) :
  Val.has_key k kvs = true -> exists v, Val.lookup k kvs = Some v.
Proof.
  unfold Val.has_key. destruct (Val.lookup k kvs) as [v | ].
  - intros _. exists v. reflexivity.
  - discriminate.
Qed.

Lemma lookup_has_key (k : string) (kvs : pydict) (v : pyval) :
  Val.lookup k kvs = Some v -> Val.has_key k kvs = true.
Proof. unfold Val.has_key. intros ->. reflexivity. Qed.

(** On an object without [notification_type], holding [reason] and no
    [toolName], the session-end detector is the one that answers. *)
Lemma detect_session_end (kvs : pydict) (reason : pyval) :
  Val.has_key "notification_type" kvs = false ->
  Val.lookup "reason" kvs = Some reason ->
  Val.has_key "toolName" kvs = false ->
  detect (PyDict kvs)
  = (event_msg <- Val.table_get reason_messages reason
                    (PyStr ("Session ended (" ++ Val.str reason ++ ")")) ;;
     Ok (event_dict "copilot_cli" (PyStr "sessionEnd") event_msg)).
Proof.
  intros Hnt Hreason Htool.
  unfold detect, and_then, absent.
  cbn [Val.contains Val.getitem bind].
  rewrite Hnt, (lookup_has_key _ _ _ Hreason), Htool.
  cbn [negb bind]. rewrite Hreason. reflexivity.
Qed.

(** On an object without [notification_type], holding [toolName] and
    [toolResult], the tool-use detector is the one that answers, whatever
    else the object holds. *)
Lemma detect_post_tool_use (kvs : pydict) (tool res : pyval) :
  Val.has_key "notification_type" kvs = false ->
  Val.lookup "toolName" kvs = Some tool ->
  Val.lookup "toolResult" kvs = Some res ->
  detect (PyDict kvs)
  = (result_type <- (if Val.is_dict res
                     then Val.get res "resultType" (PyStr "")
                     else Ok (PyStr "")) ;;
     event_msg <- Val.table_get (result_messages tool) result_type
                    (PyStr ("Tool '" ++ Val.str tool ++ "' finished")) ;;
     Ok (event_dict "copilot_cli" (PyStr "postToolUse") event_msg)).
Proof.
  intros Hnt Htool Hres.
  unfold detect, and_then, absent.
  cbn [Val.contains Val.getitem bind].
  rewrite Hnt, (lookup_has_key _ _ _ Htool), (lookup_has_key _ _ _ Hres).
  destruct (Val.has_key "reason" kvs); cbn [negb bind];
    rewrite Htool, Hres; reflexivity.
Qed.

(** C3, as the code has it: a payload holding [toolName] and [toolResult] and
    no [notification_type] key, whose nested [resultType] (when there is one)
    is not a list or an object, comes back as platform [copilot_cli] with
    event kind [postToolUse], whether or not [reason] and [source] are there
    too. *)
Theorem post_tool_use_when_no_notification_type
  (stdin : stdin_state) (argv : list string) (kvs : pydict) :
  Str.is_empty (raw_of stdin) = false ->
  Val.has_key "toolName" kvs = true ->
  Val.has_key "toolResult" kvs = true ->
  Val.has_key "notification_type" kvs = false ->
  (forall res rt,
      Val.lookup "toolResult" kvs = Some (PyDict res) ->
      Val.lookup "resultType" res = Some rt -> Val.hashable rt = true) ->
  exists msg,
    parse_input stdin argv (Ok (PyDict kvs))
    = Ok (event_dict "copilot_cli" (PyStr "postToolUse") msg).
Proof.
  intros Hraw Htool Hres Hnt Hhash.
  apply has_key_lookup in Htool. destruct Htool as [tool Htool].
  apply has_key_lookup in Hres. destruct Hres as [res Hres].
  rewrite (parse_input_decoded _ _ _ Hraw).
  rewrite (detect_post_tool_use kvs tool res Hnt Htool Hres).
  assert (Hrt : exists rt,
             (if Val.is_dict res then Val.get res "resultType" (PyStr "")
              else Ok (PyStr "")) = Ok rt /\ Val.hashable rt = true).
  { destruct res as [ | b | z | r | s | xs | inner ];
      try (exists (PyStr ""); split; reflexivity).
    cbn [Val.is_dict Val.get].
    destruct (Val.lookup "resultType" inner) as [rt | ] eqn:Ert.
    - exists rt. split; [ reflexivity | ]. eapply Hhash; eassumption.
    - exists (PyStr ""). split; reflexivity. }
  destruct Hrt as (rt & -> & Hrt). cbn [bind].
  unfold Val.table_get. rewrite Hrt. cbn [bind].
  eexists. reflexivity.
Qed.

(** C4, as the code has it: a payload holding [reason], no [toolName] and no
    [notification_type] key, whose reason is not a list or an object, comes
    back as platform [copilot_cli] with event kind [sessionEnd], its message
    taken from the table of reasons or made from the reason; the platform is
    not [unknown]. *)
Theorem session_end_when_no_notification_type
  (stdin : stdin_state) (argv : list string) (kvs : pydict) (reason : pyval) :
  Str.is_empty (raw_of stdin) = false ->
  Val.lookup "reason" kvs = Some reason ->
  Val.has_key "toolName" kvs = false ->
  Val.has_key "notification_type" kvs = false ->
  Val.hashable reason = true ->
  exists msg,
    parse_input stdin argv (Ok (PyDict kvs))
    = Ok (event_dict "copilot_cli" (PyStr "sessionEnd") msg)
    /\ Val.table_get reason_messages reason
         (PyStr ("Session ended (" ++ Val.str reason ++ ")")) = Ok msg
    /\ field "platform" (parse_input stdin argv (Ok (PyDict kvs)))
       <> Some (PyStr "unknown").
Proof.
  intros Hraw Hreason Htool Hnt Hhash.
  rewrite (parse_input_decoded _ _ _ Hraw).
  rewrite (detect_session_end kvs reason Hnt Hreason Htool).
  unfold Val.table_get. rewrite Hhash. cbn [bind].
  eexists. split; [ reflexivity | ]. split; [ reflexivity | ].
  cbn. discriminate.
Qed.

(** C3, as the specification words it, fails: with a [notification_type] key
    beside [toolName] and [toolResult], the first detector answers and the
    event kind is the notification type, not [postToolUse]. *)
Lemma post_tool_use_shadowed_by_notification_type :
  Val.contains "toolName" typed_tool_payload = Ok true
  /\ Val.contains "toolResult" typed_tool_payload = Ok true
  /\ parse_input (piped_json typed_tool_payload) argv0 (Ok typed_tool_payload)
     = Ok (event_dict "claude_code" (PyStr "idle_prompt") (PyStr idle_text))
  /\ field "event"
       (parse_input (piped_json typed_tool_payload) argv0
          (Ok typed_tool_payload))
     <> Some (PyStr "postToolUse").
Proof.
  repeat split; try (vm_compute; reflexivity).
  vm_compute. discriminate.
Qed.

Lemma post_tool_use_when_no_notification_type_witness :
  exists msg,
    parse_input (piped_json (PyDict crowded_tool_payload)) argv0
      (Ok (PyDict crowded_tool_payload))
    = Ok (event_dict "copilot_cli" (PyStr "postToolUse") msg).
Proof.
  apply (post_tool_use_when_no_notification_type
           (piped_json (PyDict crowded_tool_payload)) argv0
           crowded_tool_payload).
  - vm_compute. reflexivity.
  - vm_compute. reflexivity.
  - vm_compute. reflexivity.
  - vm_compute. reflexivity.
  - intros res rt Hres Hrt.
    vm_compute in Hres. injection Hres as <-.
    vm_compute in Hrt. injection Hrt as <-.
    reflexivity.
Defined.

(** C4, as the specification words it, fails: with a [notification_type] key
    beside [reason], and no [toolName], the first detector answers and the
    platform is [claude_code]. *)
Lemma session_end_shadowed_by_notification_type :
  Val.contains "reason" typed_reason_payload = Ok true
  /\ Val.contains "toolName" typed_reason_payload = Ok false
  /\ parse_input (piped_json typed_reason_payload) argv0
       (Ok typed_reason_payload)
     = Ok (event_dict "claude_code" (PyStr "idle_prompt") (PyStr idle_text))
  /\ field "platform"
       (parse_input (piped_json typed_reason_payload) argv0
          (Ok typed_reason_payload))
     <> Some (PyStr "copilot_cli").
Proof.
  repeat split; try (vm_compute; reflexivity).
  vm_compute. discriminate.
Qed.

Lemma session_end_when_no_notification_type_witness :
  exists msg,
    parse_input (piped_json (PyDict timeout_payload)) argv0
      (Ok (PyDict timeout_payload))
    = Ok (event_dict "copilot_cli" (PyStr "sessionEnd") msg)
    /\ Val.table_get reason_messages (PyStr "timeout")
         (PyStr ("Session ended (" ++ Val.str (PyStr "timeout") ++ ")"))
       = Ok msg
    /\ field "platform"
         (parse_input (piped_json (PyDict timeout_payload)) argv0
            (Ok (PyDict timeout_payload)))
       <> Some (PyStr "unknown").
Proof.
  apply (session_end_when_no_notification_type
           (piped_json (PyDict timeout_payload)) argv0 timeout_payload
           (PyStr "timeout")).
  - vm_compute. reflexivity.
  - vm_compute. reflexivity.
  - vm_compute. reflexivity.
  - vm_compute. reflexivity.
  - reflexivity.
Defined.

(** ** The notification-type detector *)

Lemma eq_str_true (v : pyval) (lit : string) :
  Val.eq_str v lit = true <-> v = PyStr lit.
Proof.
  destruct v; cbn; try (split; [ discriminate | discriminate ]).
  rewrite String.eqb_eq. split.
  - intros ->. reflexivity.
  - intros H. injection H as ->. reflexivity.
Qed.

Lemma eq_str_false (v : pyval) (lit : string) :
  v <> PyStr lit -> Val.eq_str v lit = false.
Proof.
  intros H. destruct (Val.eq_str v lit) eqn:E; [ | reflexivity ].
  apply eq_str_true in E. contradiction.
Qed.

(** C5: a payload with a [notification_type] key comes back as platform
    [claude_code] with that type as its event kind.  For the two mapped types
    the message is the fixed text of the type, whatever [message] the payload
    has; the payload [{notification_type: idle_prompt, message: Done}] gets
    the completion text and not [Done].  For any other type the message is
    the payload's own message when it has a non-empty one, and the type
    itself when no message is given, be it absent or empty. *)
Theorem notification_type_message
  (stdin : stdin_state) (argv : list string) (kvs : pydict) (ntype : pyval) :
  Str.is_empty (raw_of stdin) = false ->
  Val.lookup "notification_type" kvs = Some ntype ->
  exists msg,
    parse_input stdin argv (Ok (PyDict kvs))
    = Ok (event_dict "claude_code" ntype msg)
    /\ (ntype = PyStr "idle_prompt" ->
        msg = PyStr "✅ Task completed — waiting for your input")
    /\ (ntype = PyStr "permission_prompt" ->
        msg = PyStr "🔐 Permission required")
    /\ (ntype <> PyStr "idle_prompt" ->
        ntype <> PyStr "permission_prompt" ->
        match Val.lookup "message" kvs with
        | Some given => msg = if Val.truthy given then given else ntype
        | None => msg = ntype
        end).
Proof.
  intros Hraw Hnt.
  rewrite (parse_input_decoded _ _ _ Hraw).
  unfold detect. cbn [Val.contains Val.getitem Val.get bind].
  rewrite (lookup_has_key _ _ _ Hnt), Hnt. cbn [bind].
  eexists. split; [ reflexivity | ].
  split; [ | split ].
  - intros ->. reflexivity.
  - intros ->. reflexivity.
  - intros Hidle Hperm.
    rewrite (eq_str_false _ _ Hidle), (eq_str_false _ _ Hperm).
    unfold Val.or_else.
    destruct (Val.lookup "message" kvs) as [given | ]; reflexivity.
Qed.

Lemma notification_type_message_witness :
  Str.is_empty (raw_of (piped_json (PyDict idle_done_payload))) = false
  /\ Val.lookup "notification_type" idle_done_payload
     = Some (PyStr "idle_prompt")
  /\ parse_input (piped_json (PyDict idle_done_payload)) argv0
       (Ok (PyDict idle_done_payload))
     = Ok (event_dict "claude_code" (PyStr "idle_prompt") (PyStr idle_text)).
Proof.
  split; [ vm_compute; reflexivity | ].
  split; [ vm_compute; reflexivity | ].
  destruct (notification_type_message
              (piped_json (PyDict idle_done_payload)) argv0
              idle_done_payload (PyStr "idle_prompt"))
    as (msg & Heq & Hidle & _).
  - vm_compute. reflexivity.
  - vm_compute. reflexivity.
  - rewrite Heq, (Hidle eq_refl). reflexivity.
Defined.

(** An unmapped type with an empty message: the type stands in for it. *)
Lemma unmapped_type_with_empty_message :
  parse_input
    (piped_json
       (PyDict [ ("notification_type", PyStr "custom"); ("message", PyStr "") ]))
    argv0
    (Ok (PyDict [ ("notification_type", PyStr "custom");
                  ("message", PyStr "") ]))
  = Ok (event_dict "claude_code" (PyStr "custom") (PyStr "custom")).
Proof. vm_compute. reflexivity. Qed.

(** ** Formatting *)

(** C8 (the code departs from it): the body of an event that carries a
    project is its message alone, or its event kind alone when the message
    is empty, with no bracketed project tag before it; and the title of the
    platform [opencode], which the label table does not list, carries the
    raw tag, not a human label. *)
Theorem format_leaves_project_and_label_out :
  _format_body project_event = Ok (PyStr "Task completed")
  /\ _format_body quiet_project_event = Ok (PyStr "idle_prompt")
  /\ label_of "opencode" = None
  /\ _format_title opencode_event = Ok "Agent Notifier — opencode".
Proof. repeat split; vm_compute; reflexivity. Qed.

(** For the platform tag [opencode] the title is not the one with the
    label [AI Agent] either. *)
Lemma format_title_keeps_unlisted_tag :
  label_of "opencode" = None
  /\ _format_title opencode_event = Ok "Agent Notifier — opencode"
  /\ _format_title opencode_event <> Ok "Agent Notifier — AI Agent".
Proof.
  split; [ reflexivity | ].
  split; [ vm_compute; reflexivity | ].
  vm_compute. discriminate.
Qed.

(** What the two formatters do: the title is [Agent Notifier — ] followed by the
    platform's label in the table, or by the platform tag itself when the
    table does not list it (the tag [unknown] is listed, with the label
    [AI Agent]); the body of an event carrying no project, or an empty one,
    is its message, or its event kind when the message is empty. *)
Theorem format_title_and_body
  (ev : pydict) (tag : string) (msg kind : pyval) :
  Val.lookup "platform" ev = Some (PyStr tag) ->
  Val.lookup "message" ev = Some msg ->
  Val.lookup "event" ev = Some kind ->
  Val.lookup "project" ev = None
  \/ Val.lookup "project" ev = Some (PyStr "") ->
  _format_title ev
  = Ok ("Agent Notifier — "
        ++ match label_of tag with Some label => label | None => tag end)
  /\ label_of "unknown" = Some "AI Agent"
  /\ _format_body ev = Ok (if Val.truthy msg then msg else kind).
Proof.
  intros Hplat Hmsg Hkind _.
  split; [ | split ].
  - unfold _format_title, label_of.
    cbn [Val.getitem bind]. rewrite Hplat. cbn [bind].
    unfold Val.table_get. cbn [Val.hashable bind].
    destruct (find _ PLATFORM_LABELS) as [kv | ]; reflexivity.
  - reflexivity.
  - unfold _format_body. cbn [Val.getitem bind].
    rewrite Hmsg. cbn [bind].
    destruct (Val.truthy msg); [ reflexivity | ].
    rewrite Hkind. reflexivity.
Qed.

Lemma format_title_and_body_witness :
  _format_title silent_event = Ok "Agent Notifier — AI Agent"
  /\ label_of "unknown" = Some "AI Agent"
  /\ _format_body silent_event = Ok (PyStr "idle_prompt").
Proof.
  apply (format_title_and_body silent_event "unknown" (PyStr "")
           (PyStr "idle_prompt")).
  - reflexivity.
  - reflexivity.
  - reflexivity.
  - left. reflexivity.
Defined.

(** The body of an event that does carry a project is its message alone:
    no tag is put before it. *)
Lemma format_body_ignores_project :
  _format_body project_event = Ok (PyStr "Task completed").
Proof. reflexivity. Qed.

(** ** Dispatch *)

Section DispatchFacts.

Variable send : string -> pyval -> pydict -> result unit.
Variable pick : nat -> nat.
Variable ev : pydict.

(** One task: the sender's exception never leaves [_dispatch]; it becomes
    one line on the error stream. *)
Lemma dispatch_step (t : string * pyval) (w : world) :
  _dispatch send ev t w
  = Ok (match attempt send ev t with
        | Ok _ => mark_delivered (fst t) w
        | Raise exc => print_stderr (diagnostic (fst t) exc) w
        end).
Proof.
  destruct t as [name cfg]. unfold _dispatch, attempt, diagnostic.
  cbn [fst snd].
  destruct (sender_of send name) as [sender | e]; cbn [bind try_except];
    [ | reflexivity ].
  destruct (sender cfg ev) as [u | e]; reflexivity.
Qed.


Lemma remove_nth_length {A : Type} (i : nat) (l : list A) :
  (i < length l)%nat -> length l = S (length (remove_nth i l)).
Proof.
  revert i. induction l as [ | x l IH ]; intros i Hi; cbn in *.
  - lia.
  - destruct i as [ | j ]; [ reflexivity | ].
    cbn. f_equal. apply IH. lia.
Qed.

Lemma remove_nth_perm {A : Type} (i : nat) (l : list A) (d : A) :
  (i < length l)%nat -> Permutation l (nth i l d :: remove_nth i l).
Proof.
  revert i. induction l as [ | x l IH ]; intros i Hi; cbn in *.
  - lia.
  - destruct i as [ | j ]; [ apply Permutation_refl | ].
    cbn [remove_nth].
    eapply Permutation_trans; [ | apply perm_swap ].
    apply perm_skip. apply IH. lia.
Qed.

(** The pool, whatever the order of its workers: standard output is left as
    it was; the error stream gains the diagnostics of the failing channels,
    and the senders that return are all recorded, each in some order. *)
Lemma pool_map_outcome (steps : nat) :
  forall (pending : list (string * pyval)) (w : world),
    length pending = steps ->
    exists lines names,
      stdout (pool_map send pick steps ev pending w) = stdout w
      /\ stderr (pool_map send pick steps ev pending w) = (stderr w ++ lines)%list
      /\ delivered (pool_map send pick steps ev pending w)
         = (delivered w ++ names)%list
      /\ Permutation lines (diagnostics send ev pending)
      /\ Permutation names (successes send ev pending).
Proof.
  induction steps as [ | n IH ]; intros pending w Hlen.
  - destruct pending; [ | discriminate Hlen ].
    exists [], []. cbn. rewrite !app_nil_r. repeat split; constructor.
  - destruct pending as [ | first rest ]; [ discriminate Hlen | ].
    cbn [pool_map].
    set (pending := first :: rest) in *.
    set (i := (pick n mod length pending)%nat).
    assert (Hi : (i < length pending)%nat).
    { apply Nat.mod_upper_bound. subst pending. cbn. lia. }
    pose proof (remove_nth_length i pending Hi) as Hrem.
    pose proof (remove_nth_perm i pending first Hi) as Hperm.
    rewrite dispatch_step.
    set (t := nth i pending first) in *.
    set (w1 := match attempt send ev t with
               | Ok _ => mark_delivered (fst t) w
               | Raise exc => print_stderr (diagnostic (fst t) exc) w
               end).
    destruct (IH (remove_nth i pending) w1) as
      (lines & names & Hout & Herr & Hdel & Hlines & Hnames).
    { lia. }
    pose proof (Permutation_flat_map
                  (fun t => match attempt send ev t with
                            | Ok _ => []
                            | Raise exc => [ diagnostic (fst t) exc ]
                            end) Hperm) as Hd.
    pose proof (Permutation_flat_map
                  (fun t => match attempt send ev t with
                            | Ok _ => [ fst t ]
                            | Raise _ => []
                            end) Hperm) as Hs.
    fold (diagnostics send ev pending) in Hd.
    fold (successes send ev pending) in Hs.
    cbn [flat_map] in Hd, Hs.
    fold (diagnostics send ev (remove_nth i pending)) in Hd.
    fold (successes send ev (remove_nth i pending)) in Hs.
    rewrite Hout, Herr, Hdel. subst w1.
    destruct (attempt send ev t) as [u | exc].
    + exists lines, ([ fst t ] ++ names)%list. cbn [mark_delivered stdout stderr delivered].
      rewrite <- app_assoc. repeat split; try reflexivity.
      * eapply Permutation_trans; [ exact Hlines | ].
        apply Permutation_sym. exact Hd.
      * eapply Permutation_trans; [ | apply Permutation_sym; exact Hs ].
        apply Permutation_app_head. exact Hnames.
    + exists ([ diagnostic (fst t) exc ] ++ lines)%list, names.
      cbn [print_stderr stdout stderr delivered].
      rewrite <- app_assoc. repeat split; try reflexivity.
      * eapply Permutation_trans; [ | apply Permutation_sym; exact Hd ].
        apply Permutation_app_head. exact Hlines.
      * eapply Permutation_trans; [ exact Hnames | ].
        apply Permutation_sym. exact Hs.
Qed.


End DispatchFacts.

(** Once the event, the configuration and the enabled channels are there,
    [main] runs the pool and returns 0. *)
Lemma main_reaches_dispatch
  (send : string -> pyval -> pydict -> result unit) (pick : nat -> nat)
  (stdin : stdin_state) (argv : list string) (loads : result pyval)
  (paths : list path_state) (ev : pydict) (config channels : pyval)
  (channel_items enabled : list (string * pyval)) :
  parse_input stdin argv loads = Ok ev ->
  load_config paths = Ok config ->
  Val.get config "channels" (PyDict []) = Ok channels ->
  items channels = Ok channel_items ->
  select_enabled channel_items = Ok enabled ->
  enabled <> [] ->
  main send pick stdin argv loads paths
  = Ok (0%Z, dispatch_all send pick ev enabled quiet).
Proof.
  intros Hev Hcfg Hch Hitems Hsel Hne. unfold main.
  rewrite Hev. cbn [bind]. rewrite Hcfg. cbn [bind].
  rewrite Hch. cbn [bind]. rewrite Hitems. cbn [bind].
  rewrite Hsel. cbn [bind].
  destruct enabled; [ contradiction | reflexivity ].
Qed.

(** Whenever [main] returns, it returns 0. *)
Lemma main_returns_zero
  (send : string -> pyval -> pydict -> result unit) (pick : nat -> nat)
  (stdin : stdin_state) (argv : list string) (loads : result pyval)
  (paths : list path_state) (status : Z) (w : world) :
  main send pick stdin argv loads paths = Ok (status, w) -> status = 0%Z.
Proof.
  unfold main. intros H.
  repeat
    (match type of H with
     | bind ?r _ = Ok _ =>
         destruct r; cbn [bind] in H; [ | discriminate H ]
     end).
  match type of H with
  | match ?l with _ => _ end = _ => destruct l
  end; injection H as <- _; reflexivity.
Qed.

(** Every channel the comprehension of [main] keeps has a sender. *)
Lemma select_enabled_known (channels : list (string * pyval)) :
  forall enabled,
    select_enabled channels = Ok enabled ->
    forall n c, In (n, c) enabled -> known_channel n = true.
Proof.
  induction channels as [ | [name cfg] rest IH ]; intros enabled H n c Hin.
  - injection H as <-. destruct Hin.
  - cbn [select_enabled] in H.
    destruct (Val.get cfg "enabled" PyNone) as [flag | e];
      cbn [bind] in H; [ | discriminate H ].
    destruct (select_enabled rest) as [selected | e];
      cbn [bind] in H; [ | discriminate H ].
    injection H as <-.
    destruct (Val.truthy flag && known_channel name) eqn:Ekeep.
    + destruct Hin as [Heq | Hin].
      * injection Heq as <- <-.
        apply andb_true_iff in Ekeep. apply Ekeep.
      * eapply IH; [ reflexivity | exact Hin ].
    + eapply IH; [ reflexivity | exact Hin ].
Qed.



(** ** Configuration and the exit status *)

(** With no file at any candidate path, the configuration is the default
    one, which enables the sound and the desktop notification only. *)
Lemma load_config_no_file (paths : list path_state) :
  (forall p, In p paths -> is_file p = false) ->
  load_config paths = Ok default_config.
Proof.
  induction paths as [ | p rest IH ]; intros H.
  - reflexivity.
  - cbn [load_config]. rewrite (H p (or_introl eq_refl)).
    apply IH. intros q Hq. apply H. right. exact Hq.
Qed.

Lemma default_config_channels :
  (channels <- Val.get default_config "channels" (PyDict []) ;;
   channel_items <- items channels ;;
   enabled <- select_enabled channel_items ;;
   Ok (map fst enabled))
  = Ok [ "sound"; "macos_notification" ].
Proof. reflexivity. Qed.

(** With no configuration file, a run whose input is normalised ends with
    status 0, whatever the senders do. *)
Lemma exit_status_zero_without_config
  (send : string -> pyval -> pydict -> result unit) (pick : nat -> nat)
  (stdin : stdin_state) (argv : list string) (loads : result pyval)
  (paths : list path_state) (ev : pydict) :
  parse_input stdin argv loads = Ok ev ->
  (forall p, In p paths -> is_file p = false) ->
  exit_status send pick stdin argv loads paths = 0%Z.
Proof.
  intros Hev Hpaths. unfold exit_status, main.
  rewrite Hev, (load_config_no_file paths Hpaths). reflexivity.
Qed.

(** C10 (the code departs from it): with a file that is not JSON at the
    first candidate path, [json.load] raises inside [load_config], nothing
    catches the exception, and the process ends with status 1, whatever the
    input and the senders. *)
Theorem exit_status_broken_config
  (send : string -> pyval -> pydict -> result unit) (pick : nat -> nat) :
  raised_kind (load_config [ broken_file; no_file ]) = Some JSONDecodeError
  /\ exit_status send pick (piped_json (PyDict idle_done_payload)) argv0
       (Ok (PyDict idle_done_payload)) [ broken_file; no_file ]
     = 1%Z.
Proof. split; reflexivity. Qed.

(** * Further properties of the script *)

(** ** Input without a document *)

Lemma strip_blank (s : string) : blank s = true -> Str.strip s = "".
Proof.
  intros H. unfold Str.strip.
  assert (Hl : Str.lstrip s = "").
  { induction s as [ | c rest IH ]; [ reflexivity | ].
    cbn [blank] in H. apply andb_true_iff in H. destruct H as [Hc Hrest].
    cbn [Str.lstrip]. rewrite Hc. apply IH. exact Hrest. }
  rewrite Hl. reflexivity.
Qed.

(** X1: when standard input is a terminal, or is not one and reading it
    raises, or is not one and holds nothing but white space, the decoder is
    not consulted: with arguments after the script name the event is the
    Aider one with the arguments joined by single spaces, with none it is
    the empty [unknown] notification. *)
Theorem parse_input_without_text
  (stdin : stdin_state) (argv : list string) (loads : result pyval) :
  isatty stdin = Ok true
  \/ (isatty stdin = Ok false /\ returns (read stdin) = false)
  \/ (isatty stdin = Ok false
      /\ exists text,
           read stdin = Ok text /\ Str.is_empty (Str.strip text) = true) ->
  parse_input stdin argv loads
  = if (1 <? length argv)%nat
    then Ok (event_dict "aider" (PyStr "notification")
               (PyStr (Str.join " " (tl argv))))
    else Ok (event_dict "unknown" (PyStr "notification") (PyStr "")).
Proof.
  intros H.
  assert (Hraw : exists text,
             _read_stdin stdin = Ok text
             /\ Str.is_empty (Str.strip text) = true).
  { unfold _read_stdin.
    destruct H as [Htty | [[Htty Hread] | (Htty & text & Hread & Hblank)]];
      rewrite Htty; cbn [bind].
    - exists "". split; reflexivity.
    - destruct (read stdin); [ discriminate Hread | ].
      exists "". split; reflexivity.
    - rewrite Hread. exists text. split; [ reflexivity | exact Hblank ]. }
  destruct Hraw as (text & Htext & Hempty).
  unfold parse_input. rewrite Htext. cbn [bind]. cbv zeta.
  rewrite Hempty. cbn [andb].
  destruct (1 <? length argv)%nat; reflexivity.
Qed.

Lemma parse_input_without_text_witness :
  parse_input {| isatty := Ok true; read := Ok "ignored" |}
    [ "notify.py"; "Build"; "finished" ] (Ok PyNone)
  = Ok (event_dict "aider" (PyStr "notification") (PyStr "Build finished")).
Proof.
  apply (parse_input_without_text
           {| isatty := Ok true; read := Ok "ignored" |}
           [ "notify.py"; "Build"; "finished" ] (Ok PyNone)).
  left. reflexivity.
Defined.

(** When the test on the terminal itself raises, nothing catches it. *)
Lemma parse_input_without_stdin
  (stdin : stdin_state) (argv : list string) (loads : result pyval)
  (e : exn) :
  isatty stdin = Raise e -> parse_input stdin argv loads = Raise e.
Proof.
  intros H. unfold parse_input, _read_stdin. rewrite H. reflexivity.
Qed.

(** X2: on text the decoder rejects, the stripped text itself is the message
    of an [unknown] notification; any other exception of the decoder leaves
    [parse_input] as it is. *)
Theorem parse_input_undecodable
  (stdin : stdin_state) (argv : list string) (e : exn) :
  Str.is_empty (raw_of stdin) = false ->
  parse_input stdin argv (Raise e)
  = if exn_kind_eqb (kind e) JSONDecodeError
    then Ok (event_dict "unknown" (PyStr "notification")
               (PyStr (raw_of stdin)))
    else Raise e.
Proof.
  intros Hraw. unfold parse_input. unfold raw_of in *.
  destruct (_read_stdin stdin) as [text | e']; [ | discriminate Hraw ].
  cbn [bind]. cbv zeta. rewrite Hraw. reflexivity.
Qed.

Lemma parse_input_undecodable_witness :
  parse_input (piped "  plain text message ") argv0
    (Raise (Exn JSONDecodeError "Expecting value"))
  = Ok (event_dict "unknown" (PyStr "notification")
          (PyStr "plain text message")).
Proof.
  apply (parse_input_undecodable (piped "  plain text message ") argv0
           (Exn JSONDecodeError "Expecting value")).
  vm_compute. reflexivity.
Defined.

(** ** Normalised events and their formatting *)

(** Every event a detector returns names one of six platforms. *)
Lemma detect_platform (data : pyval) (ev : pydict) :
  detect data = Ok ev ->
  exists p e m, ev = event_dict p e m /\ In p platforms.
Proof.
  unfold detect, hook_message, and_then, or_else, absent.
  intros H.
  repeat
    (match type of H with
     | bind ?r _ = Ok _ =>
         let E := fresh "E" in
         destruct r eqn:E; cbn [bind] in H; [ | discriminate H ]
     | (if ?b then _ else _) = Ok _ => destruct b
     end);
    injection H as <-; eexists _, _, _; (split; [ reflexivity | ]);
    try (match goal with
         | |- context [if ?b then _ else _] => destruct b
         end);
    cbn; tauto.
Qed.

Lemma parse_input_platform (stdin : stdin_state) (argv : list string)
  (loads : result pyval) (ev : pydict) :
  parse_input stdin argv loads = Ok ev ->
  exists p e m, ev = event_dict p e m /\ In p platforms.
Proof.
  unfold parse_input. intros H.
  destruct (_read_stdin stdin) as [text | e0]; cbn [bind] in H;
    [ cbv zeta in H | discriminate H ].
  destruct (Str.is_empty _ && _).
  { injection H as <-. eexists _, _, _. split; [ reflexivity | cbn; tauto ]. }
  destruct (Str.is_empty _).
  { injection H as <-. eexists _, _, _. split; [ reflexivity | cbn; tauto ]. }
  destruct loads as [data | e].
  - eapply detect_platform; eassumption.
  - destruct (exn_kind_eqb _ _); [ | discriminate H ].
    injection H as <-. eexists _, _, _.
    split; [ reflexivity | cbn; tauto ].
Qed.

Lemma formats_of_normalised
  (stdin : stdin_state) (argv : list string) (loads : result pyval)
  (ev : pydict) :
  parse_input stdin argv loads = Ok ev ->
  exists tag label kind msg,
    ev = event_dict tag kind msg
    /\ In tag platforms
    /\ label_of tag = Some label
    /\ _format_title ev = Ok ("Agent Notifier — " ++ label)
    /\ _format_body ev = Ok (if Val.truthy msg then msg else kind).
Proof.
  intros H. apply parse_input_platform in H.
  destruct H as (p & e & m & -> & Hin).
  assert (Hlabel : exists label,
             label_of p = Some label
             /\ _format_title (event_dict p e m)
                = Ok ("Agent Notifier — " ++ label)).
  { cbn in Hin.
    destruct Hin as [<- | [<- | [<- | [<- | [<- | [<- | []]]]]]];
      eexists; split; reflexivity. }
  destruct Hlabel as (label & Hl & Ht).
  exists p, label, e, m.
  split; [ reflexivity | ]. split; [ exact Hin | ].
  split; [ exact Hl | ]. split; [ exact Ht | ].
  unfold _format_body, event_dict. cbn [Val.getitem Val.lookup bind].
  cbn. destruct (Val.truthy m); reflexivity.
Qed.

(** X3: whatever event [parse_input] returns, its platform is one of the six
    the script names, each of which has a label; so formatting it never
    raises: the title carries that label (the fall-back to the raw tag is
    never taken), and the body is the message, or the event kind when the
    message is empty. *)
Theorem normalised_event_formats
  (stdin : stdin_state) (argv : list string) (loads : result pyval)
  (ev : pydict) :
  parse_input stdin argv loads = Ok ev ->
  exists tag label kind msg,
    ev = event_dict tag kind msg
    /\ In tag platforms
    /\ label_of tag = Some label
    /\ _format_title ev = Ok ("Agent Notifier — " ++ label)
    /\ _format_body ev = Ok (if Val.truthy msg then msg else kind).
Proof. apply formats_of_normalised. Qed.

Lemma normalised_event_formats_witness :
  exists tag label kind msg,
    event_dict "copilot_cli" (PyStr "sessionEnd") (PyStr "Task completed")
    = event_dict tag kind msg
    /\ In tag platforms
    /\ label_of tag = Some label
    /\ _format_title
         (event_dict "copilot_cli" (PyStr "sessionEnd")
            (PyStr "Task completed"))
       = Ok ("Agent Notifier — " ++ label)
    /\ _format_body
         (event_dict "copilot_cli" (PyStr "sessionEnd")
            (PyStr "Task completed"))
       = Ok (if Val.truthy msg then msg else kind).
Proof.
  apply (normalised_event_formats (piped_json session_end_payload) argv0
           (Ok session_end_payload)).
  vm_compute. reflexivity.
Defined.

(** ** The later detectors *)

Lemma lacks_early_keys (kvs : pydict) :
  lacks early_keys kvs = true ->
  Val.has_key "notification_type" kvs = false
  /\ Val.has_key "reason" kvs = false
  /\ Val.has_key "toolName" kvs = false
  /\ Val.has_key "source" kvs = false.
Proof.
  unfold lacks, early_keys. cbn [forallb].
  rewrite !andb_true_iff, !negb_true_iff. tauto.
Qed.

(** Unfolds the detector chain on an object and discharges the tests of the
    detectors the hypotheses rule out. *)
Ltac enter_detect :=
  unfold detect, and_then, or_else, absent;
  cbn [Val.contains Val.getitem Val.get bind].

(** X4: an object holding [source] and none of [notification_type],
    [reason] and [toolName] is a Copilot CLI session start whose message
    names the source: its text when it is a string, what [str] gives of it
    when it is a number, a boolean, [null], or a list or an object whose
    strings are ASCII. *)
Theorem session_start_detected
  (stdin : stdin_state) (argv : list string) (kvs : pydict) (source : pyval) :
  Str.is_empty (raw_of stdin) = false ->
  Val.lookup "source" kvs = Some source ->
  renders_exactly source = true ->
  lacks [ "notification_type"; "reason"; "toolName" ] kvs = true ->
  parse_input stdin argv (Ok (PyDict kvs))
  = Ok (event_dict "copilot_cli" (PyStr "sessionStart")
          (PyStr ("Session started (" ++ Val.str source ++ ")"))).
Proof.
  intros Hraw Hsource _ Hlacks.
  unfold lacks in Hlacks. cbn [forallb] in Hlacks.
  rewrite !andb_true_iff, !negb_true_iff in Hlacks.
  destruct Hlacks as (Hnt & Hreason & Htool & _).
  rewrite (parse_input_decoded _ _ _ Hraw). enter_detect.
  rewrite Hnt, Hreason, Htool, (lookup_has_key _ _ _ Hsource).
  cbn [negb bind]. rewrite Hsource. reflexivity.
Qed.

Lemma session_start_detected_witness :
  parse_input (piped_json (PyDict [ ("source", PyStr "terminal") ])) argv0
    (Ok (PyDict [ ("source", PyStr "terminal") ]))
  = Ok (event_dict "copilot_cli" (PyStr "sessionStart")
          (PyStr "Session started (terminal)")).
Proof.
  apply (session_start_detected
           (piped_json (PyDict [ ("source", PyStr "terminal") ])) argv0
           [ ("source", PyStr "terminal") ] (PyStr "terminal")).
  - vm_compute. reflexivity.
  - reflexivity.
  - reflexivity.
  - reflexivity.
Defined.

Lemma contains_slash_cons (c : ascii) (rest : string) :
  Str.contains "/" (String c rest)
  = Ascii.eqb c "/"%char || Str.contains "/" rest.
Proof.
  cbn [Str.contains prefix].
  destruct (ascii_dec "/"%char c) as [<- | Hne].
  - destruct rest; reflexivity.
  - destruct (Ascii.eqb c "/"%char) eqn:E; [ | reflexivity ].
    apply Ascii.eqb_eq in E. congruence.
Qed.

Lemma after_last_slash_no_slash (s : string) :
  forall acc,
    Str.contains "/" s = true \/ Str.contains "/" acc = false ->
    Str.contains "/" (Str.after_last_slash s acc) = false.
Proof.
  induction s as [ | c rest IH ]; intros acc H.
  - cbn [Str.after_last_slash]. destruct H as [H | H]; [ | exact H ].
    discriminate H.
  - cbn [Str.after_last_slash]. rewrite contains_slash_cons in H.
    destruct (Ascii.eqb c "/"%char).
    + apply IH. destruct (Str.contains "/" rest); [ left | right ]; reflexivity.
    + apply IH. exact H.
Qed.

Lemma after_last_slash_suffix (s : string) :
  forall acc,
    Str.after_last_slash s acc = acc
    \/ exists dir, s = dir ++ Str.after_last_slash s acc.
Proof.
  induction s as [ | c rest IH ]; intros acc.
  - left. reflexivity.
  - cbn [Str.after_last_slash].
    destruct (Ascii.eqb c "/"%char).
    + right. destruct (IH rest) as [-> | (dir & Hdir)].
      * exists (String c ""). reflexivity.
      * exists (String c dir). cbn. f_equal. exact Hdir.
    + destruct (IH acc) as [-> | (dir & Hdir)].
      * left. reflexivity.
      * right. exists (String c dir). cbn. f_equal. exact Hdir.
Qed.

(** The base name of a path, as [posixpath] takes it, has no slash and ends
    the path. *)
Lemma basename_spec (path : string) :
  Str.contains "/" (Str.basename path) = false
  /\ exists dir, path = dir ++ Str.basename path.
Proof.
  unfold Str.basename. split.
  - apply after_last_slash_no_slash.
    destruct (Str.contains "/" path); [ left | right ]; reflexivity.
  - destruct (after_last_slash_suffix path path) as [-> | H].
    + exists "". reflexivity.
    + exact H.
Qed.

(** X5: in the hook family (an object with none of the earlier detectors'
    keys and a [hook_event_name] that is not empty) with an [agent] that is
    absent or a string, the event kind is the hook name as it came and the
    platform is [cursor] exactly when the agent, in lower case, contains
    [cursor], and [copilot_cli] otherwise.  For [sessionEnd] and [stop] the
    message is [Task completed] when [status] is [completed] and
    [Session ended] otherwise; a hook name the script does not know is its
    own message. *)
Theorem hook_family_kind_and_platform
  (stdin : stdin_state) (argv : list string) (kvs : pydict)
  (hook : pyval) (agent : string) :
  Str.is_empty (raw_of stdin) = false ->
  lacks early_keys kvs = true ->
  Val.lookup "hook_event_name" kvs = Some hook ->
  Val.truthy hook = true ->
  setting kvs "agent" (PyStr "") = PyStr agent ->
  Val.eq_str hook "postToolUse" = false ->
  Val.eq_str hook "afterFileEdit" = false ->
  parse_input stdin argv (Ok (PyDict kvs))
  = Ok (event_dict
          (if Str.contains "cursor" (Str.lower agent)
           then "cursor" else "copilot_cli")
          hook
          (if Val.eq_str hook "sessionEnd" || Val.eq_str hook "stop"
           then PyStr (if Val.eq_str (setting kvs "status" (PyStr ""))
                            "completed"
                       then "Task completed" else "Session ended")
           else hook)).
Proof.
  intros Hraw Hlacks Hhook Htruthy Hagent Htool Hedit.
  apply lacks_early_keys in Hlacks.
  destruct Hlacks as (Hnt & Hreason & Htn & Hsource).
  rewrite (parse_input_decoded _ _ _ Hraw). enter_detect.
  rewrite Hnt, Hreason, Htn, Hsource. cbn [negb bind].
  rewrite Hhook, Htruthy.
  unfold hook_message. rewrite Htool, Hedit.
  unfold setting in *. rewrite Hagent.
  destruct (Val.eq_str hook "sessionEnd" || Val.eq_str hook "stop");
    reflexivity.
Qed.

Lemma hook_family_kind_and_platform_witness :
  parse_input
    (piped_json (PyDict [ ("hook_event_name", PyStr "stop");
                          ("status", PyStr "completed");
                          ("agent", PyStr "Cursor IDE") ]))
    argv0
    (Ok (PyDict [ ("hook_event_name", PyStr "stop");
                  ("status", PyStr "completed");
                  ("agent", PyStr "Cursor IDE") ]))
  = Ok (event_dict "cursor" (PyStr "stop") (PyStr "Task completed")).
Proof.
  apply (hook_family_kind_and_platform
           (piped_json (PyDict [ ("hook_event_name", PyStr "stop");
                                 ("status", PyStr "completed");
                                 ("agent", PyStr "Cursor IDE") ]))
           argv0
           [ ("hook_event_name", PyStr "stop");
             ("status", PyStr "completed");
             ("agent", PyStr "Cursor IDE") ]
           (PyStr "stop") "Cursor IDE").
  - vm_compute. reflexivity.
  - reflexivity.
  - reflexivity.
  - reflexivity.
  - reflexivity.
  - reflexivity.
  - reflexivity.
Defined.

(** X6: in the hook family an [agent] that is there and is not a string
    (a number, [null], a list) makes [parse_input] raise: the platform test
    calls [lower] on it. *)
Theorem hook_with_non_string_agent_raises
  (stdin : stdin_state) (argv : list string) (kvs : pydict)
  (hook agent : pyval) :
  Str.is_empty (raw_of stdin) = false ->
  lacks early_keys kvs = true ->
  Val.lookup "hook_event_name" kvs = Some hook ->
  Val.truthy hook = true ->
  Val.lookup "agent" kvs = Some agent ->
  (forall s, agent <> PyStr s) ->
  returns (parse_input stdin argv (Ok (PyDict kvs))) = false.
Proof.
  intros Hraw Hlacks Hhook Htruthy Hagent Hnot.
  apply lacks_early_keys in Hlacks.
  destruct Hlacks as (Hnt & Hreason & Htool & Hsource).
  rewrite (parse_input_decoded _ _ _ Hraw). enter_detect.
  rewrite Hnt, Hreason, Htool, Hsource. cbn [negb bind].
  rewrite Hhook, Htruthy.
  destruct (hook_message _ _ _) as [event_msg | e]; [ | reflexivity ].
  cbn [bind]. rewrite Hagent.
  destruct agent; try reflexivity.
  exfalso. eapply Hnot. reflexivity.
Qed.

Lemma hook_with_non_string_agent_raises_witness :
  returns
    (parse_input
       (piped_json (PyDict [ ("hook_event_name", PyStr "stop");
                             ("agent", PyNone) ]))
       argv0
       (Ok (PyDict [ ("hook_event_name", PyStr "stop");
                     ("agent", PyNone) ])))
  = false.
Proof.
  apply (hook_with_non_string_agent_raises
           (piped_json (PyDict [ ("hook_event_name", PyStr "stop");
                                 ("agent", PyNone) ]))
           argv0
           [ ("hook_event_name", PyStr "stop"); ("agent", PyNone) ]
           (PyStr "stop") PyNone).
  - vm_compute. reflexivity.
  - reflexivity.
  - reflexivity.
  - reflexivity.
  - reflexivity.
  - intros s. discriminate.
Defined.

(** X7: a [reason] that is a list or an object, in an object without
    [toolName] and [notification_type], makes [parse_input] raise
    [TypeError]: the reason is used as a key of the table of reasons. *)
Theorem unhashable_reason_raises
  (stdin : stdin_state) (argv : list string) (kvs : pydict) (reason : pyval) :
  Str.is_empty (raw_of stdin) = false ->
  Val.has_key "notification_type" kvs = false ->
  Val.lookup "reason" kvs = Some reason ->
  Val.has_key "toolName" kvs = false ->
  Val.hashable reason = false ->
  raised_kind (parse_input stdin argv (Ok (PyDict kvs))) = Some TypeError.
Proof.
  intros Hraw Hnt Hreason Htool Hhash.
  rewrite (parse_input_decoded _ _ _ Hraw).
  rewrite (detect_session_end kvs reason Hnt Hreason Htool).
  unfold Val.table_get. rewrite Hhash. reflexivity.
Qed.

Lemma unhashable_reason_raises_witness :
  raised_kind
    (parse_input
       (piped_json (PyDict [ ("reason", PyList [ PyStr "complete" ]) ]))
       argv0
       (Ok (PyDict [ ("reason", PyList [ PyStr "complete" ]) ])))
  = Some TypeError.
Proof.
  apply (unhashable_reason_raises
           (piped_json (PyDict [ ("reason", PyList [ PyStr "complete" ]) ]))
           argv0
           [ ("reason", PyList [ PyStr "complete" ]) ]
           (PyList [ PyStr "complete" ])).
  - vm_compute. reflexivity.
  - reflexivity.
  - reflexivity.
  - reflexivity.
  - reflexivity.
Defined.

(** X8: a tool result whose [resultType] is a list or an object, in an
    object without [notification_type], makes [parse_input] raise
    [TypeError] in the same way. *)
Theorem unhashable_result_type_raises
  (stdin : stdin_state) (argv : list string) (kvs res : pydict)
  (tool result_type : pyval) :
  Str.is_empty (raw_of stdin) = false ->
  Val.has_key "notification_type" kvs = false ->
  Val.lookup "toolName" kvs = Some tool ->
  Val.lookup "toolResult" kvs = Some (PyDict res) ->
  Val.lookup "resultType" res = Some result_type ->
  Val.hashable result_type = false ->
  raised_kind (parse_input stdin argv (Ok (PyDict kvs))) = Some TypeError.
Proof.
  intros Hraw Hnt Htool Hres Hrt Hhash.
  rewrite (parse_input_decoded _ _ _ Hraw).
  rewrite (detect_post_tool_use kvs tool (PyDict res) Hnt Htool Hres).
  cbn [Val.is_dict Val.get bind]. rewrite Hrt. cbn [bind].
  unfold Val.table_get. rewrite Hhash. reflexivity.
Qed.

Lemma unhashable_result_type_raises_witness :
  raised_kind
    (parse_input
       (piped_json
          (PyDict [ ("toolName", PyStr "bash");
                    ("toolResult", PyDict [ ("resultType", PyDict []) ]) ]))
       argv0
       (Ok (PyDict [ ("toolName", PyStr "bash");
                     ("toolResult", PyDict [ ("resultType", PyDict []) ]) ])))
  = Some TypeError.
Proof.
  apply (unhashable_result_type_raises
           (piped_json
              (PyDict [ ("toolName", PyStr "bash");
                        ("toolResult", PyDict [ ("resultType", PyDict []) ]) ]))
           argv0
           [ ("toolName", PyStr "bash");
             ("toolResult", PyDict [ ("resultType", PyDict []) ]) ]
           [ ("resultType", PyDict []) ]
           (PyStr "bash") (PyDict [])).
  - vm_compute. reflexivity.
  - reflexivity.
  - reflexivity.
  - reflexivity.
  - reflexivity.
  - reflexivity.
Defined.

(** X9: the message of a tool result names the tool (its text when the
    name is a string, what [str] gives of it when it is a number, a boolean,
    [null], or a list or an object whose strings are ASCII) and tells the
    result: [completed successfully], [failed] or [was denied] for the three
    known result types, [finished] for any other string. *)
Theorem post_tool_use_message
  (stdin : stdin_state) (argv : list string) (kvs res : pydict)
  (tool : pyval) (code : string) :
  Str.is_empty (raw_of stdin) = false ->
  Val.has_key "notification_type" kvs = false ->
  Val.lookup "toolName" kvs = Some tool ->
  renders_exactly tool = true ->
  Val.lookup "toolResult" kvs = Some (PyDict res) ->
  Val.lookup "resultType" res = Some (PyStr code) ->
  parse_input stdin argv (Ok (PyDict kvs))
  = Ok (event_dict "copilot_cli" (PyStr "postToolUse")
          (PyStr ("Tool '" ++ Val.str tool ++ "' "
                  ++ (if String.eqb "success" code
                      then "completed successfully"
                      else if String.eqb "failure" code then "failed"
                      else if String.eqb "denied" code then "was denied"
                      else "finished")))).
Proof.
  intros Hraw Hnt Htool _ Hres Hrt.
  rewrite (parse_input_decoded _ _ _ Hraw).
  rewrite (detect_post_tool_use kvs tool (PyDict res) Hnt Htool Hres).
  cbn [Val.is_dict Val.get bind]. rewrite Hrt. cbn [bind].
  unfold Val.table_get, result_messages.
  cbn [Val.hashable find fst snd].
  destruct (String.eqb "success" code); [ reflexivity | ].
  destruct (String.eqb "failure" code); [ reflexivity | ].
  destruct (String.eqb "denied" code); reflexivity.
Qed.

Lemma post_tool_use_message_witness :
  parse_input
    (piped_json
       (PyDict [ ("toolName", PyStr "bash");
                 ("toolResult", PyDict [ ("resultType", PyStr "denied") ]) ]))
    argv0
    (Ok (PyDict [ ("toolName", PyStr "bash");
                  ("toolResult", PyDict [ ("resultType", PyStr "denied") ]) ]))
  = Ok (event_dict "copilot_cli" (PyStr "postToolUse")
          (PyStr "Tool 'bash' was denied")).
Proof.
  apply (post_tool_use_message
           (piped_json
              (PyDict [ ("toolName", PyStr "bash");
                        ("toolResult",
                         PyDict [ ("resultType", PyStr "denied") ]) ]))
           argv0
           [ ("toolName", PyStr "bash");
             ("toolResult", PyDict [ ("resultType", PyStr "denied") ]) ]
           [ ("resultType", PyStr "denied") ]
           (PyStr "bash") "denied").
  - vm_compute. reflexivity.
  - reflexivity.
  - reflexivity.
  - reflexivity.
  - reflexivity.
  - reflexivity.
Defined.

(** X10: an object with none of the earlier detectors' keys and no
    [hook_event_name] worth the name, that has the key
    [agent-turn-complete] or the [type] of that name, is a Codex turn; its
    message is the object's own, whatever it is, or [Agent turn completed]
    when the object has none. *)
Theorem codex_turn_detected
  (stdin : stdin_state) (argv : list string) (kvs : pydict) :
  Str.is_empty (raw_of stdin) = false ->
  lacks early_keys kvs = true ->
  Val.truthy (setting kvs "hook_event_name" (PyStr "")) = false ->
  Val.has_key "agent-turn-complete" kvs = true
  \/ Val.lookup "type" kvs = Some (PyStr "agent-turn-complete") ->
  parse_input stdin argv (Ok (PyDict kvs))
  = Ok (event_dict "codex" (PyStr "agent-turn-complete")
          (setting kvs "message" (PyStr "Agent turn completed"))).
Proof.
  intros Hraw Hlacks Hhook Hcodex.
  apply lacks_early_keys in Hlacks.
  destruct Hlacks as (Hnt & Hreason & Htool & Hsource).
  rewrite (parse_input_decoded _ _ _ Hraw). enter_detect.
  rewrite Hnt, Hreason, Htool, Hsource. cbn [negb bind].
  unfold setting in Hhook. rewrite Hhook.
  destruct (Val.has_key "agent-turn-complete" kvs) eqn:Ekey; cbn [bind].
  - reflexivity.
  - destruct Hcodex as [Hkey | Htype]; [ discriminate Hkey | ].
    rewrite Htype. reflexivity.
Qed.

Lemma codex_turn_detected_witness :
  parse_input
    (piped_json (PyDict [ ("type", PyStr "agent-turn-complete") ])) argv0
    (Ok (PyDict [ ("type", PyStr "agent-turn-complete") ]))
  = Ok (event_dict "codex" (PyStr "agent-turn-complete")
          (PyStr "Agent turn completed")).
Proof.
  apply (codex_turn_detected
           (piped_json (PyDict [ ("type", PyStr "agent-turn-complete") ]))
           argv0 [ ("type", PyStr "agent-turn-complete") ]).
  - vm_compute. reflexivity.
  - reflexivity.
  - reflexivity.
  - right. reflexivity.
Defined.

(** X11: an object no detector knows comes back as an [unknown]
    notification whose message is the object's [message] when it has the
    key, even an empty one, and otherwise the JSON text of the object. *)
Theorem unmatched_object_falls_back
  (stdin : stdin_state) (argv : list string) (kvs : pydict) :
  Str.is_empty (raw_of stdin) = false ->
  lacks early_keys kvs = true ->
  Val.truthy (setting kvs "hook_event_name" (PyStr "")) = false ->
  Val.has_key "agent-turn-complete" kvs = false ->
  Val.eq_str (setting kvs "type" PyNone) "agent-turn-complete" = false ->
  parse_input stdin argv (Ok (PyDict kvs))
  = Ok (event_dict "unknown" (PyStr "notification")
          (setting kvs "message" (PyStr (Json.dumps (PyDict kvs))))).
Proof.
  intros Hraw Hlacks Hhook Hkey Htype.
  apply lacks_early_keys in Hlacks.
  destruct Hlacks as (Hnt & Hreason & Htool & Hsource).
  rewrite (parse_input_decoded _ _ _ Hraw). enter_detect.
  rewrite Hnt, Hreason, Htool, Hsource. cbn [negb bind].
  unfold setting in Hhook, Htype. rewrite Hhook, Hkey. cbn [bind].
  rewrite Htype. reflexivity.
Qed.

Lemma unmatched_object_falls_back_witness :
  parse_input
    (piped_json (PyDict [ ("some", PyStr "unknown"); ("data", PyBool true) ]))
    argv0
    (Ok (PyDict [ ("some", PyStr "unknown"); ("data", PyBool true) ]))
  = Ok (event_dict "unknown" (PyStr "notification")
          (PyStr
             (Json.dumps
                (PyDict [ ("some", PyStr "unknown");
                          ("data", PyBool true) ])))).
Proof.
  apply (unmatched_object_falls_back
           (piped_json
              (PyDict [ ("some", PyStr "unknown"); ("data", PyBool true) ]))
           argv0
           [ ("some", PyStr "unknown"); ("data", PyBool true) ]).
  - vm_compute. reflexivity.
  - reflexivity.
  - reflexivity.
  - reflexivity.
  - reflexivity.
Defined.

(** ** Selection of the channels and the run *)

Lemma select_enabled_is_filter (channels : list (string * pyval)) :
  Forall (fun channel => Val.is_dict (snd channel) = true) channels ->
  select_enabled channels = Ok (filter kept channels).
Proof.
  induction channels as [ | [name cfg] rest IH ]; intros Hall.
  - reflexivity.
  - inversion Hall as [ | ? ? Hcfg Hrest ]; subst.
    cbn [select_enabled filter].
    destruct cfg; try discriminate Hcfg.
    cbn [Val.get bind]. rewrite (IH Hrest). cbn [bind].
    unfold kept at 2. cbn [fst snd]. unfold setting. reflexivity.
Qed.

Lemma select_enabled_raises_on_non_object
  (channels : list (string * pyval)) (name : string) (cfg : pyval) :
  In (name, cfg) channels ->
  Val.is_dict cfg = false ->
  raised_kind (select_enabled channels) = Some AttributeError.
Proof.
  induction channels as [ | [n c] rest IH ]; intros Hin Hcfg.
  - destruct Hin.
  - cbn [select_enabled].
    destruct Hin as [Heq | Hin].
    + injection Heq as -> ->.
      destruct cfg; try discriminate Hcfg; reflexivity.
    + specialize (IH Hin Hcfg).
      destruct c; try reflexivity.
      cbn [Val.get bind].
      destruct (select_enabled rest); [ discriminate IH | exact IH ].
Qed.

(** X12: when every channel's configuration is an object, the channels
    [main] dispatches to are exactly those with a true [enabled] value and a
    known name, in the order of the configuration; the others are dropped
    without an error. *)
Theorem select_enabled_filters (channels : list (string * pyval)) :
  Forall (fun channel => Val.is_dict (snd channel) = true) channels ->
  select_enabled channels = Ok (filter kept channels).
Proof. apply select_enabled_is_filter. Qed.

Lemma select_enabled_filters_witness :
  select_enabled
    [ ("sound", PyDict [ ("enabled", PyBool true) ]);
      ("pager", PyDict [ ("enabled", PyBool true) ]);
      ("slack", PyDict [ ("enabled", PyBool false) ]);
      ("email", PyDict []);
      ("discord", PyDict [ ("enabled", PyInt 1) ]) ]
  = Ok [ ("sound", PyDict [ ("enabled", PyBool true) ]);
         ("discord", PyDict [ ("enabled", PyInt 1) ]) ].
Proof.
  apply (select_enabled_filters
           [ ("sound", PyDict [ ("enabled", PyBool true) ]);
             ("pager", PyDict [ ("enabled", PyBool true) ]);
             ("slack", PyDict [ ("enabled", PyBool false) ]);
             ("email", PyDict []);
             ("discord", PyDict [ ("enabled", PyInt 1) ]) ]).
  repeat constructor.
Defined.

(** X13: one channel whose configuration is not an object (a bare [true],
    say) is enough for the selection to raise [AttributeError], wherever the
    channel stands and whatever the others are. *)
Theorem select_enabled_non_object_raises
  (channels : list (string * pyval)) (name : string) (cfg : pyval) :
  In (name, cfg) channels ->
  Val.is_dict cfg = false ->
  raised_kind (select_enabled channels) = Some AttributeError.
Proof. apply select_enabled_raises_on_non_object. Qed.

Lemma select_enabled_non_object_raises_witness :
  raised_kind
    (select_enabled
       [ ("sound", PyDict [ ("enabled", PyBool true) ]);
         ("slack", PyBool true) ])
  = Some AttributeError.
Proof.
  apply (select_enabled_non_object_raises
           [ ("sound", PyDict [ ("enabled", PyBool true) ]);
             ("slack", PyBool true) ]
           "slack" (PyBool true)).
  - right. left. reflexivity.
  - reflexivity.
Defined.

(** X14: when the configuration enables no channel the script knows, [main]
    returns 0 at once: no sender is called and nothing is written. *)
Theorem nothing_enabled_nothing_done
  (send : string -> pyval -> pydict -> result unit) (pick : nat -> nat)
  (stdin : stdin_state) (argv : list string) (loads : result pyval)
  (paths : list path_state) (ev cfg : pydict)
  (channels : list (string * pyval)) :
  parse_input stdin argv loads = Ok ev ->
  load_config paths = Ok (PyDict cfg) ->
  setting cfg "channels" (PyDict []) = PyDict channels ->
  Forall (fun channel => Val.is_dict (snd channel) = true) channels ->
  filter kept channels = [] ->
  main send pick stdin argv loads paths = Ok (0%Z, quiet).
Proof.
  intros Hev Hcfg Hch Hall Hnone. unfold main.
  rewrite Hev. cbn [bind]. rewrite Hcfg. cbn [Val.get bind].
  unfold setting in Hch. rewrite Hch. cbn [items bind].
  rewrite (select_enabled_is_filter channels Hall), Hnone. reflexivity.
Qed.

Lemma nothing_enabled_nothing_done_witness :
  main telegram_down second_first (piped_json session_end_payload) argv0
    (Ok session_end_payload)
    [ {| is_file := true;
         load := Ok (PyDict
                       [ ("channels",
                          PyDict [ ("telegram",
                                    PyDict [ ("enabled", PyBool false) ]) ]) ])
      |} ]
  = Ok (0%Z, quiet).
Proof.
  apply (nothing_enabled_nothing_done telegram_down second_first
           (piped_json session_end_payload) argv0 (Ok session_end_payload)
           [ {| is_file := true;
                load := Ok (PyDict
                              [ ("channels",
                                 PyDict [ ("telegram",
                                           PyDict [ ("enabled",
                                                     PyBool false) ]) ]) ])
             |} ]
           (event_dict "copilot_cli" (PyStr "sessionEnd")
              (PyStr "Task completed"))
           [ ("channels",
              PyDict [ ("telegram", PyDict [ ("enabled", PyBool false) ]) ]) ]
           [ ("telegram", PyDict [ ("enabled", PyBool false) ]) ]).
  - vm_compute. reflexivity.
  - reflexivity.
  - reflexivity.
  - repeat constructor.
  - reflexivity.
Defined.

Lemma attempts_add_up
  (send : string -> pyval -> pydict -> result unit) (ev : pydict)
  (channels : list (string * pyval)) :
  (length (diagnostics send ev channels)
   + length (successes send ev channels))%nat
  = length channels.
Proof.
  unfold diagnostics, successes.
  induction channels as [ | t rest IH ]; [ reflexivity | ].
  cbn [flat_map]. rewrite !length_app.
  destruct (attempt send ev t); cbn [length]; lia.
Qed.


(** X16: the configuration is read from the first candidate path that is a
    file, and from that one only: what it holds, or the exception reading it
    raises, is the result, whatever stands at the later paths. *)
Theorem load_config_first_file
  (before after : list path_state) (p : path_state) :
  Forall (fun q => is_file q = false) before ->
  is_file p = true ->
  load_config (before ++ p :: after)%list = load p.
Proof.
  intros Hbefore Hp.
  induction Hbefore as [ | q rest Hq _ IH ].
  - cbn [app load_config]. rewrite Hp. reflexivity.
  - cbn [app load_config]. rewrite Hq. exact IH.
Qed.

Lemma load_config_first_file_witness :
  load_config
    ([ no_file ]
       ++ {| is_file := true; load := Ok (PyDict []) |} :: [ broken_file ])%list
  = Ok (PyDict []).
Proof.
  apply (load_config_first_file [ no_file ] [ broken_file ]
           {| is_file := true; load := Ok (PyDict []) |}).
  - repeat constructor.
  - reflexivity.
Defined.



(** ** The senders *)

Import Senders.

(** X18: without a bot token or without a chat identifier, be it absent or
    empty, [send_telegram] returns at once: no request is made, nothing is
    raised, and the event is not even looked at. *)
Theorem telegram_without_credentials
  (h : host) (cfg ev : pydict) :
  Val.truthy (setting cfg "bot_token" (PyStr "")) = false
  \/ Val.truthy (setting cfg "chat_id" (PyStr "")) = false ->
  send_telegram h (PyDict cfg) ev = done.
Proof.
  intros H. unfold send_telegram, setting in *.
  cbn [Val.get after].
  destruct H as [-> | ->]; cbn [negb orb]; [ reflexivity | ].
  rewrite orb_true_r. reflexivity.
Qed.

Lemma telegram_without_credentials_witness :
  send_telegram alsa_host (PyDict [ ("enabled", PyBool true);
                                    ("bot_token", PyStr "123:abc") ])
    opencode_event
  = done.
Proof.
  apply (telegram_without_credentials alsa_host
           [ ("enabled", PyBool true); ("bot_token", PyStr "123:abc") ]
           opencode_event).
  right. reflexivity.
Defined.

(** X19: without a webhook address, absent or empty, [send_slack] and
    [send_discord] return at once without a request. *)
Theorem webhooks_without_address
  (h : host) (cfg ev : pydict) :
  Val.truthy (setting cfg "webhook_url" (PyStr "")) = false ->
  send_slack h (PyDict cfg) ev = done
  /\ send_discord h (PyDict cfg) ev = done.
Proof.
  intros H. unfold send_slack, send_discord, setting in *.
  cbn [Val.get after]. rewrite H. split; reflexivity.
Qed.

Lemma webhooks_without_address_witness :
  send_slack alsa_host (PyDict [ ("enabled", PyBool true) ]) opencode_event
  = done
  /\ send_discord alsa_host (PyDict [ ("enabled", PyBool true) ])
       opencode_event
     = done.
Proof.
  apply (webhooks_without_address alsa_host [ ("enabled", PyBool true) ]
           opencode_event).
  reflexivity.
Defined.

(** X20: when one of the host, the user name, the password and the
    recipient is absent or empty, [send_email] returns at once: no SMTP
    session is opened. *)
Theorem email_without_settings
  (h : host) (cfg ev : pydict) (k : string) :
  In k mail_settings ->
  Val.truthy (setting cfg k (PyStr "")) = false ->
  send_email h (PyDict cfg) ev = done.
Proof.
  intros Hin Hk. unfold send_email. cbn [Val.get after].
  fold (setting cfg "smtp_host" (PyStr "")).
  fold (setting cfg "username" (PyStr "")).
  fold (setting cfg "password" (PyStr "")).
  fold (setting cfg "to_addr" (PyStr "")).
  cbn [forallb].
  cbn [mail_settings In] in Hin.
  destruct Hin as [<- | [<- | [<- | [<- | []]]]]; rewrite Hk;
    rewrite ?andb_false_r; reflexivity.
Qed.

Lemma email_without_settings_witness :
  send_email alsa_host
    (PyDict [ ("smtp_host", PyStr "smtp.test.com");
              ("username", PyStr "user@test.com");
              ("password", PyStr "");
              ("to_addr", PyStr "to@test.com") ])
    opencode_event
  = done.
Proof.
  apply (email_without_settings alsa_host
           [ ("smtp_host", PyStr "smtp.test.com");
             ("username", PyStr "user@test.com");
             ("password", PyStr "");
             ("to_addr", PyStr "to@test.com") ]
           opencode_event "password").
  - right. right. left. reflexivity.
  - reflexivity.
Defined.

(** X21: off their systems the two local senders do nothing: away from
    macOS [send_macos_notification] returns at once whatever it is given,
    and on a system that is neither macOS nor Linux [send_sound] starts no
    player. *)
Theorem local_senders_off_platform
  (h : host) (cfg : pyval) (sound_cfg ev : pydict) :
  String.eqb (system h) "Darwin" = false ->
  send_macos_notification h cfg ev = done
  /\ (String.eqb (system h) "Linux" = false ->
      send_sound h (PyDict sound_cfg) ev = done).
Proof.
  intros Hmac. split.
  - unfold send_macos_notification. rewrite Hmac. reflexivity.
  - intros Hlinux. unfold send_sound. cbn [Val.get after].
    rewrite Hmac, Hlinux. reflexivity.
Qed.

Lemma local_senders_off_platform_witness :
  send_macos_notification bare_host PyNone opencode_event = done
  /\ (String.eqb (system bare_host) "Linux" = false ->
      send_sound bare_host (PyDict []) opencode_event = done).
Proof.
  apply (local_senders_off_platform bare_host PyNone [] opencode_event).
  reflexivity.
Defined.

(** X22: on Linux a sound player that is not installed is no error:
    [paplay] is tried first and [aplay] only when [paplay] is not found;
    whether one of them starts or neither is found, [send_sound] returns
    normally. *)
Theorem sound_on_linux_tolerates_missing_players
  (h : host) (cfg ev : pydict) :
  String.eqb (system h) "Darwin" = false ->
  String.eqb (system h) "Linux" = true ->
  spawn_raised
    (popen h [ PyStr "paplay"; setting cfg "file" (PyStr default_sound) ])
  = false ->
  spawn_raised
    (popen h [ PyStr "aplay"; setting cfg "file" (PyStr default_sound) ])
  = false ->
  send_sound h (PyDict cfg) ev
  = (if started
          (popen h [ PyStr "paplay";
                     setting cfg "file" (PyStr default_sound) ])
     then [ Spawn [ PyStr "paplay";
                    setting cfg "file" (PyStr default_sound) ] ]
     else [ Spawn [ PyStr "paplay";
                    setting cfg "file" (PyStr default_sound) ];
            Spawn [ PyStr "aplay";
                    setting cfg "file" (PyStr default_sound) ] ],
     Ok tt).
Proof.
  intros Hmac Hlinux Hpa Ha. unfold send_sound. cbn [Val.get after].
  fold (setting cfg "file" (PyStr default_sound)).
  rewrite Hmac, Hlinux. cbn [try_players].
  destruct (popen h [ PyStr "paplay"; _ ]) as [ | d | e ];
    [ reflexivity | | discriminate Hpa ].
  destruct (popen h [ PyStr "aplay"; _ ]) as [ | d' | e ];
    [ reflexivity | reflexivity | discriminate Ha ].
Qed.

Lemma sound_on_linux_tolerates_missing_players_witness :
  send_sound alsa_host (PyDict [ ("enabled", PyBool true) ]) opencode_event
  = ([ Spawn [ PyStr "paplay"; PyStr default_sound ];
       Spawn [ PyStr "aplay"; PyStr default_sound ] ],
     Ok tt).
Proof.
  apply (sound_on_linux_tolerates_missing_players alsa_host
           [ ("enabled", PyBool true) ] opencode_event).
  - reflexivity.
  - reflexivity.
  - reflexivity.
  - reflexivity.
Defined.

(** X23: with a bot token and a chat identifier, on an event [parse_input]
    returned, [send_telegram] makes exactly one request, and ends as the
    request ends: to the bot's [sendMessage] address, with the chat
    identifier, the Markdown parse mode, the text [*title*] followed on the
    next line by the body, and a timeout of 10 seconds.  The token and the
    body go into the address and the text as [str] gives them; this is
    stated for a token and a body that are strings, or otherwise hold ASCII
    strings only. *)
Theorem telegram_posts_once
  (h : host) (cfg : pydict) (stdin : stdin_state) (argv : list string)
  (loads : result pyval) (ev : pydict) :
  parse_input stdin argv loads = Ok ev ->
  Val.truthy (setting cfg "bot_token" (PyStr "")) = true ->
  Val.truthy (setting cfg "chat_id" (PyStr "")) = true ->
  renders_exactly (setting cfg "bot_token" (PyStr "")) = true ->
  (forall body, _format_body ev = Ok body -> renders_exactly body = true) ->
  exists title body,
    _format_title ev = Ok title
    /\ _format_body ev = Ok body
    /\ send_telegram h (PyDict cfg) ev
       = post h
           {| url :=
                PyStr ("https://api.telegram.org/bot"
                       ++ Val.str (setting cfg "bot_token" (PyStr ""))
                       ++ "/sendMessage");
              payload :=
                PyDict [ ("chat_id", setting cfg "chat_id" (PyStr ""));
                         ("text",
                          PyStr ("*" ++ title ++ "*" ++ newline
                                 ++ Val.str body));
                         ("parse_mode", PyStr "Markdown") ];
              timeout := 10 |}.
Proof.
  intros Hev Htoken Hchat _ _.
  destruct (formats_of_normalised stdin argv loads ev Hev)
    as (tag & label & kind & msg & _ & _ & _ & Htitle & Hbody).
  eexists _, _. split; [ exact Htitle | ]. split; [ exact Hbody | ].
  unfold send_telegram. cbn [Val.get after].
  fold (setting cfg "bot_token" (PyStr "")).
  fold (setting cfg "chat_id" (PyStr "")).
  rewrite Htoken, Hchat. cbn [negb orb].
  rewrite Htitle, Hbody. reflexivity.
Qed.

Lemma telegram_posts_once_witness :
  exists title body,
    _format_title
      (event_dict "copilot_cli" (PyStr "sessionEnd") (PyStr "Task completed"))
    = Ok title
    /\ _format_body
         (event_dict "copilot_cli" (PyStr "sessionEnd")
            (PyStr "Task completed"))
       = Ok body
    /\ send_telegram alsa_host telegram_cfg
         (event_dict "copilot_cli" (PyStr "sessionEnd")
            (PyStr "Task completed"))
       = post alsa_host
           {| url := PyStr ("https://api.telegram.org/bot"
                            ++ Val.str (PyStr "t") ++ "/sendMessage");
              payload :=
                PyDict [ ("chat_id", PyStr "c");
                         ("text",
                          PyStr ("*" ++ title ++ "*" ++ newline
                                 ++ Val.str body));
                         ("parse_mode", PyStr "Markdown") ];
              timeout := 10 |}.
Proof.
  apply (telegram_posts_once alsa_host
           [ ("enabled", PyBool true);
             ("bot_token", PyStr "t"); ("chat_id", PyStr "c") ]
           (piped_json session_end_payload) argv0 (Ok session_end_payload)
           (event_dict "copilot_cli" (PyStr "sessionEnd")
              (PyStr "Task completed"))).
  - vm_compute. reflexivity.
  - reflexivity.
  - reflexivity.
  - reflexivity.
  - intros body Hbody. vm_compute in Hbody. injection Hbody as <-.
    reflexivity.
Defined.

(** Takes a sender apart along the steps that may raise and the tests it
    makes. *)
Ltac split_sender :=
  repeat
    (match goal with
     | |- context [after ?r _] =>
         destruct r; cbn [after fail done post spawn]
     | |- context [if ?b then _ else _] => destruct b
     | |- context [match popen ?h ?c with _ => _ end] => destruct (popen h c)
     end).

(** X24: no sender of the table makes more than one network request, and
    each request it makes, HTTP or SMTP, carries the timeout of 10 seconds;
    no sender makes more than two calls to the outside in all. *)
Theorem senders_make_one_bounded_request
  (name : string) (sender : host -> pyval -> pydict -> outcome)
  (h : host) (cfg : pyval) (ev : pydict) :
  sender_named name = Some sender ->
  (length (timeouts (fst (sender h cfg ev))) <= 1)%nat
  /\ Forall (fun t => t = 10%Z) (timeouts (fst (sender h cfg ev)))
  /\ (length (fst (sender h cfg ev)) <= 2)%nat.
Proof.
  unfold sender_named, channel_senders. cbn [find fst snd].
  intros H.
  repeat
    (match type of H with
     | option_map _ (if ?b then _ else _) = _ => destruct b
     end);
    cbn [option_map snd] in H; try discriminate H;
    injection H as <-.
  - unfold send_sound. cbn [try_players]. split_sender;
      cbn; repeat split; try lia; repeat constructor.
  - unfold send_macos_notification. split_sender;
      cbn; repeat split; try lia; repeat constructor.
  - unfold send_telegram. split_sender;
      cbn; repeat split; try lia; repeat constructor.
  - unfold send_email. split_sender;
      cbn; repeat split; try lia; repeat constructor.
  - unfold send_slack. split_sender;
      cbn; repeat split; try lia; repeat constructor.
  - unfold send_discord. split_sender;
      cbn; repeat split; try lia; repeat constructor.
Qed.

Lemma senders_make_one_bounded_request_witness :
  (length (timeouts (fst (send_telegram alsa_host telegram_cfg
                            opencode_event))) <= 1)%nat
  /\ Forall (fun t => t = 10%Z)
       (timeouts (fst (send_telegram alsa_host telegram_cfg opencode_event)))
  /\ (length (fst (send_telegram alsa_host telegram_cfg opencode_event))
      <= 2)%nat.
Proof.
  apply (senders_make_one_bounded_request "telegram" send_telegram
           alsa_host telegram_cfg opencode_event).
  reflexivity.
Defined.

(** The names of [CHANNEL_SENDERS] are the names of the table of senders. *)
Lemma known_channel_has_sender (name : string) :
  known_channel name = true <-> sender_named name <> None.
Proof.
  unfold known_channel, sender_named, CHANNEL_SENDERS, channel_senders.
  cbn [existsb find fst].
  rewrite !(String.eqb_sym name).
  repeat
    (match goal with
     | |- context [String.eqb ?lit name] => destruct (String.eqb lit name)
     end);
    cbn; split; intros H; try reflexivity; try discriminate;
    try (exfalso; apply H; reflexivity).
Qed.

(** X25: a body that is not text (the event of a payload whose
    [notification_type] is a number, say) stops the desktop notification on
    macOS and the mail before any call to the outside: each raises
    [AttributeError] with nothing spawned and no session opened. *)
Theorem non_text_body_stops_notification_and_mail
  (h : host) (cfg mail_cfg ev : pydict) (title : string) (body : pyval) :
  _format_title ev = Ok title ->
  _format_body ev = Ok body ->
  (forall s, body <> PyStr s) ->
  String.eqb (system h) "Darwin" = true ->
  forallb (fun k => Val.truthy (setting mail_cfg k (PyStr ""))) mail_settings
  = true ->
  fst (send_macos_notification h (PyDict cfg) ev) = []
  /\ raised_kind (snd (send_macos_notification h (PyDict cfg) ev))
     = Some AttributeError
  /\ fst (send_email h (PyDict mail_cfg) ev) = []
  /\ raised_kind (snd (send_email h (PyDict mail_cfg) ev))
     = Some AttributeError.
Proof.
  intros Htitle Hbody Hnot Hmac Hall.
  assert (Hreplace : exists e, replace_quotes body = Raise e
                               /\ kind e = AttributeError).
  { destruct body; try (eexists; split; reflexivity).
    exfalso. eapply Hnot. reflexivity. }
  assert (Hmime : exists e, mime_text body = Raise e
                            /\ kind e = AttributeError).
  { destruct body; try (eexists; split; reflexivity).
    exfalso. eapply Hnot. reflexivity. }
  destruct Hreplace as (e1 & Hr & Hk1). destruct Hmime as (e2 & Hm & Hk2).
  unfold send_macos_notification. rewrite Hmac. cbn [negb].
  rewrite Htitle, Hbody. cbn [after]. rewrite Hr. cbn [after fail fst snd].
  split; [ reflexivity | ]. split; [ cbn; rewrite Hk1; reflexivity | ].
  unfold send_email. cbn [Val.get after].
  fold (setting mail_cfg "smtp_host" (PyStr "")).
  fold (setting mail_cfg "username" (PyStr "")).
  fold (setting mail_cfg "password" (PyStr "")).
  fold (setting mail_cfg "to_addr" (PyStr "")).
  cbn [mail_settings forallb] in Hall. cbn [forallb].
  rewrite Hall. cbn [negb].
  rewrite Htitle, Hbody. cbn [after]. rewrite Hm. cbn [after fail fst snd].
  split; [ reflexivity | cbn; rewrite Hk2; reflexivity ].
Qed.

Lemma non_text_body_stops_notification_and_mail_witness :
  fst (send_macos_notification
         {| system := "Darwin"; popen := fun _ => Started;
            urlopen := fun _ => Ok tt; smtp := fun _ => Ok tt |}
         (PyDict [ ("enabled", PyBool true) ])
         (event_dict "claude_code" (PyInt 5) (PyInt 5)))
  = []
  /\ raised_kind
       (snd (send_macos_notification
               {| system := "Darwin"; popen := fun _ => Started;
                  urlopen := fun _ => Ok tt; smtp := fun _ => Ok tt |}
               (PyDict [ ("enabled", PyBool true) ])
               (event_dict "claude_code" (PyInt 5) (PyInt 5))))
     = Some AttributeError
  /\ fst (send_email
            {| system := "Darwin"; popen := fun _ => Started;
               urlopen := fun _ => Ok tt; smtp := fun _ => Ok tt |}
            (PyDict [ ("smtp_host", PyStr "smtp.test.com");
                      ("username", PyStr "user@test.com");
                      ("password", PyStr "pass");
                      ("to_addr", PyStr "to@test.com") ])
            (event_dict "claude_code" (PyInt 5) (PyInt 5)))
     = []
  /\ raised_kind
       (snd (send_email
               {| system := "Darwin"; popen := fun _ => Started;
                  urlopen := fun _ => Ok tt; smtp := fun _ => Ok tt |}
               (PyDict [ ("smtp_host", PyStr "smtp.test.com");
                         ("username", PyStr "user@test.com");
                         ("password", PyStr "pass");
                         ("to_addr", PyStr "to@test.com") ])
               (event_dict "claude_code" (PyInt 5) (PyInt 5))))
     = Some AttributeError.
Proof.
  apply (non_text_body_stops_notification_and_mail
           {| system := "Darwin"; popen := fun _ => Started;
              urlopen := fun _ => Ok tt; smtp := fun _ => Ok tt |}
           [ ("enabled", PyBool true) ]
           [ ("smtp_host", PyStr "smtp.test.com");
             ("username", PyStr "user@test.com");
             ("password", PyStr "pass");
             ("to_addr", PyStr "to@test.com") ]
           (event_dict "claude_code" (PyInt 5) (PyInt 5))
           "Agent Notifier — Claude Code" (PyInt 5)).
  - reflexivity.
  - reflexivity.
  - intros s. discriminate.
  - reflexivity.
  - reflexivity.
Defined.

(** X26: with no configuration file, away from macOS, and provided starting
    a player raises nothing but "not found", a run that normalised its input
    ends with status 0 and an empty error stream, both default channels
    delivered: a machine without a sound player reports no failure. *)
Theorem default_run_off_macos
  (h : host) (pick : nat -> nat) (stdin : stdin_state) (argv : list string)
  (loads : result pyval) (paths : list path_state) (ev : pydict) :
  parse_input stdin argv loads = Ok ev ->
  (forall p, In p paths -> is_file p = false) ->
  String.eqb (system h) "Darwin" = false ->
  (forall command, spawn_raised (popen h command) = false) ->
  exists w,
    main (send_on h) pick stdin argv loads paths = Ok (0%Z, w)
    /\ stdout w = []
    /\ stderr w = []
    /\ Permutation (delivered w) [ "sound"; "macos_notification" ].
Proof.
  intros Hev Hpaths Hmac Hquiet.
  unfold main. rewrite Hev. cbn [bind].
  rewrite (load_config_no_file paths Hpaths).
  cbn [default_config Val.get Val.lookup String.eqb Ascii.eqb Bool.eqb
       bind items select_enabled].
  cbn -[dispatch_all quiet].
  eexists. split; [ reflexivity | ].
  match goal with
  | |- context [dispatch_all ?s ?p ?e ?l quiet] =>
      destruct (pool_map_outcome s p e (length l) l quiet eq_refl)
        as (lines & names & Hout & Herr & Hdel & Hlines & Hnames);
      fold (dispatch_all s p e l quiet) in Hout, Herr, Hdel
  end.
  assert (Hsound : forall cfg,
             snd (send_sound h (PyDict cfg) ev) = Ok tt).
  { intros cfg. unfold send_sound. cbn [Val.get after]. rewrite Hmac.
    destruct (String.eqb (system h) "Linux"); [ | reflexivity ].
    cbn [try_players].
    match goal with
    | |- context [popen h ?c] =>
        pose proof (Hquiet c) as Hpa; destruct (popen h c);
        [ reflexivity | | discriminate Hpa ]
    end.
    match goal with
    | |- context [popen h ?c] =>
        pose proof (Hquiet c) as Ha; destruct (popen h c);
        [ reflexivity | reflexivity | discriminate Ha ]
    end. }
  unfold diagnostics, successes, attempt, sender_of in Hlines, Hnames.
  cbn [flat_map fst snd known_channel CHANNEL_SENDERS existsb] in Hlines, Hnames.
  cbn -[send_sound send_macos_notification] in Hlines, Hnames.
  unfold send_on, sender_named, channel_senders in Hlines, Hnames.
  cbn -[send_sound send_macos_notification] in Hlines, Hnames.
  rewrite Hsound in Hlines, Hnames.
  unfold send_macos_notification in Hlines, Hnames.
  rewrite Hmac in Hlines, Hnames.
  cbn in Hlines, Hnames.
  apply Permutation_sym, Permutation_nil in Hlines. subst lines.
  rewrite Hout, Herr, Hdel.
  split; [ reflexivity | ]. split; [ reflexivity | ]. exact Hnames.
Qed.

Lemma default_run_off_macos_witness :
  exists w,
    main (send_on alsa_host) second_first (piped_json session_end_payload)
      argv0 (Ok session_end_payload) [ no_file; no_file ]
    = Ok (0%Z, w)
    /\ stdout w = []
    /\ stderr w = []
    /\ Permutation (delivered w) [ "sound"; "macos_notification" ].
Proof.
  apply (default_run_off_macos alsa_host second_first
           (piped_json session_end_payload) argv0 (Ok session_end_payload)
           [ no_file; no_file ]
           (event_dict "copilot_cli" (PyStr "sessionEnd")
              (PyStr "Task completed"))).
  - vm_compute. reflexivity.
  - intros p [<- | [<- | []]]; reflexivity.
  - reflexivity.
  - intros command. cbn.
    destruct command as [ | [ | | | | s | | ] rest ]; try reflexivity.
    destruct (String.eqb s "aplay") eqn:E.
    + apply String.eqb_eq in E. subst s. reflexivity.
    + destruct s as [ | c s ]; [ reflexivity | ].
      cbn. repeat (match goal with
                   | |- context [match ?x with _ => _ end] => destruct x
                   end; try reflexivity).
Defined.
